(** * ByteRize API: a shallow embedding of the request handlers of [main.py]

    The handlers of [src/main.py] are embedded as functions in a small
    state-and-exception monad over an in-memory document store.  Python
    floats, datetimes and the few builtins that render them are taken as
    an interface ([PyRuntime]); every theorem holds for each of its
    implementations. *)

From Stdlib Require Import ZArith NArith Ascii String List Lia.
From stdpp Require Import base tactics option list strings gmap fin_maps
  fin_sets infinite pretty.

Set Warnings "-register-all".

Local Open Scope string_scope.
Local Open Scope Z_scope.

(** ** The Python runtime the handlers rely on *)

(** [float] is the Python float of [price] and [total]; [round2 x] is
    [round(x, 2)], [float_ne] is [!=] on floats and [float_of_int] the
    promotion of an int operand in mixed arithmetic.  [datetime] is
    [datetime.datetime]; [isoformat] its method of that name.  The three
    [repr]s and [datetime_str] are the builtins [str] falls back on. *)
Class PyRuntime := {
  float : Type;
  float_of_int : Z → float;
  float_add : float → float → float;
  float_mul : float → float → float;
  float_ne : float → float → bool;
  float_ge_int : float → Z → bool;
  round2 : float → float;
  float_repr : float → string;
  str_repr : string → string;
  datetime : Type;
  isoformat : datetime → string;
  datetime_str : datetime → string;
  datetime_repr : datetime → string;
}.

(** ** ObjectId *)

(** A [bson.ObjectId] is twelve bytes; it is kept as the number those bytes
    spell in base 256. *)
Abbreviation oid := N.

Definition hex_digit (c : ascii) : option N :=
  let n := N_of_ascii c in
  if ((48 <=? n) && (n <=? 57))%N then Some (n - 48)%N
  else if ((97 <=? n) && (n <=? 102))%N then Some (n - 87)%N
  else if ((65 <=? n) && (n <=? 70))%N then Some (n - 55)%N
  else None.

Fixpoint parse_hex (s : string) (acc : N) : option N :=
  match s with
  | EmptyString => Some acc
  | String c s' =>
      match hex_digit c with
      | Some d => parse_hex s' (16 * acc + d)%N
      | None => None
      end
  end.

(** [ObjectId(s)] for a [str] argument: a 24-character hex string, or
    [InvalidId] (here [None]). *)
Definition ObjectId (s : string) : option oid :=
  if decide (String.length s = 24%nat) then parse_hex s 0%N else None.

Definition hex_char (d : N) : ascii :=
  ascii_of_N (if (d <? 10)%N then 48 + d else 87 + d)%N.

(** The [width] hex digits of [n], most significant first. *)
Fixpoint hex_be (width : nat) (n : N) : string :=
  match width with
  | O => EmptyString
  | S w => String (hex_char ((n / 16 ^ N.of_nat w) mod 16)%N) (hex_be w n)
  end.

(** Twelve bytes give 24 digits; the width only grows for a number that is
    not an ObjectId. *)
Definition oid_width (n : N) : nat :=
  Nat.max 24 (N.to_nat (N.log2 n / 4 + 1)).

(** [str(oid)] *)
Definition oid_str (o : oid) : string := hex_be (oid_width o) o.

(** ** Documents *)

Section Model.
Context `{PyRuntime}.

(** The values a stored or returned document holds.  A nested dictionary
    keeps its keys in insertion order; a document itself is a finite map. *)
Inductive value :=
  | VNone
  | VBool (b : bool)
  | VInt (n : Z)
  | VFloat (x : float)
  | VStr (s : string)
  | VOid (o : oid)
  | VDatetime (t : datetime)
  | VList (l : list value)
  | VDict (d : list (string * value)).

Abbreviation dict := (gmap string value).

Definition join (sep : string) (l : list string) : string :=
  match l with
  | [] => ""
  | x :: l' => fold_left (λ acc y, acc ++ sep ++ y) l' x
  end.

(** [repr(v)] *)
Fixpoint py_repr (v : value) : string :=
  match v with
  | VNone => "None"
  | VBool true => "True"
  | VBool false => "False"
  | VInt n => pretty n
  | VFloat x => float_repr x
  | VStr s => str_repr s
  | VOid o => "ObjectId('" ++ oid_str o ++ "')"
  | VDatetime t => datetime_repr t
  | VList l => "[" ++ join ", " (map py_repr l) ++ "]"
  | VDict d =>
      "{" ++ join ", " (map (λ kv, str_repr (fst kv) ++ ": " ++ py_repr (snd kv)) d) ++ "}"
  end.

(** [str(v)] *)
Definition py_str (v : value) : string :=
  match v with
  | VStr s => s
  | VOid o => oid_str o
  | VDatetime t => datetime_str t
  | _ => py_repr v
  end.

(** Truth value of [v] in a condition. *)
Definition truthy (v : value) : bool :=
  match v with
  | VNone => false
  | VBool b => b
  | VInt n => negb (n =? 0)
  | VFloat x => float_ne x (float_of_int 0)
  | VStr s => negb (String.eqb s "")
  | VOid _ => true
  | VDatetime _ => true
  | VList l => match l with [] => false | _ => true end
  | VDict d => match d with [] => false | _ => true end
  end.

(** [v != s] for a [str] [s] *)
Definition py_ne_str (v : value) (s : string) : bool :=
  match v with
  | VStr s' => negb (String.eqb s' s)
  | _ => true
  end.

(** [d.get(k)] and [d.get(k, dflt)] *)
Definition get (d : dict) (k : string) : value := default VNone (d !! k).
Definition get_or (d : dict) (k : string) (dflt : value) : value := default dflt (d !! k).

(** [not d] for a dictionary *)
Definition dict_empty (d : dict) : bool := bool_decide (dom d = ∅).

(** ** Helpers *)

Definition iso_value (v : value) : value :=
  match v with
  | VDatetime t => VStr (isoformat t)
  | _ => v
  end.

(** [oid_to_str] on a dictionary (lines 24-34). *)
Definition oid_to_str_dict (doc : dict) : dict :=
  if dict_empty doc then doc
  else
    let d := doc in
    let d :=
      match d !! "_id" with
      | Some VNone | None => d
      | Some v => <["id" := VStr (py_str v)]> (delete "_id" d)
      end in
    iso_value <$> d.

(** [oid_to_str] as the handlers call it, on what [find_one] returned:
    [None] is falsy and comes back as it is. *)
Definition oid_to_str (doc : option dict) : option dict := oid_to_str_dict <$> doc.

(** ** The document store *)

(** A collection maps the [_id] of each document to its other fields;
    reading a document gives it back with its [_id]. *)
Abbreviation collection := (gmap oid dict).
Abbreviation DB := (gmap string (gmap oid dict)).

(** Modelled from the spec: [database.db], the document store that
    [main.py] imports from the [database] module, which is not among the
    sources.  [coll name db] is [db[name]]; the operations defined below
    on it are the ones the spec lists for the store (insert with a
    generated identifier, find, conditional update as one indivisible
    operation, delete), with the filters and update operators the handlers
    pass. *)
Definition coll (name : string) (db : DB) : collection := default ∅ (db !! name).

Definition with_id (kd : oid * dict) : dict := <["_id" := VOid kd.1]> kd.2.

(** One condition of a filter: equality with a string or an ObjectId,
    or [{"$gte": n}]. *)
Inductive cond :=
  | CEqStr (s : string)
  | CEqOid (o : oid)
  | CGte (n : Z).

(** A filter document, as a list of its entries. *)
Definition query := list (string * cond).

Definition cond_holds (c : cond) (v : value) : bool :=
  match c, v with
  | CEqStr s, VStr s' => String.eqb s' s
  | CEqOid o, VOid o' => N.eqb o' o
  | CGte n, VInt m => n <=? m
  | CGte n, VFloat x => float_ge_int x n
  | _, _ => false
  end.

Definition matches (q : query) (d : dict) : bool :=
  forallb (λ fc, match d !! fc.1 with
                 | Some v => cond_holds fc.2 v
                 | None => false
                 end) q.

(** The documents of a collection that match [q], with their keys. *)
Definition find_matches (q : query) (c : collection) : list (oid * dict) :=
  filter (λ kd, matches q (with_id kd) = true) (map_to_list c).

Definition first_match (q : query) (c : collection) : option (oid * dict) :=
  head (find_matches q c).

(** The update document [{"$inc": ..., "$set": ...}]. *)
Record update := { u_inc : list (string * Z); u_set : list (string * value) }.

(** [$inc]: [None] is the store's write error on a field that is not a
    number. *)
Definition apply_inc (d : option dict) (fn : string * Z) : option dict :=
  match d with
  | None => None
  | Some d =>
      match d !! fn.1 with
      | None => Some (<[fn.1 := VInt fn.2]> d)
      | Some (VInt m) => Some (<[fn.1 := VInt (m + fn.2)]> d)
      | Some (VFloat x) => Some (<[fn.1 := VFloat (float_add x (float_of_int fn.2))]> d)
      | Some _ => None
      end
  end.

Definition apply_update (u : update) (d : dict) : option dict :=
  match fold_left apply_inc (u_inc u) (Some d) with
  | None => None
  | Some d' => Some (fold_left (λ acc fv, <[fv.1 := fv.2]> acc) (u_set u) d')
  end.

(** ** Handlers run in a state-and-exception monad *)

Inductive exn :=
  | HTTPException (status_code : Z) (detail : string)
  | InvalidId
  | WriteError
  | OverflowError
  | KeyError (key : string).

Inductive outcome (A : Type) :=
  | Return (a : A)
  | Raise (e : exn).
Global Arguments Return {A} a.
Global Arguments Raise {A} e.

Definition M (A : Type) : Type := DB → outcome A * DB.

#[export] Instance M_ret : MRet M := λ A a db, (Return a, db).
#[export] Instance M_bind : MBind M := λ A B f m db,
  match m db with
  | (Return a, db') => f a db'
  | (Raise e, db') => (Raise e, db')
  end.

Definition raise {A} (e : exn) : M A := λ db, (Raise e, db).

(** [try: body / except Exception: handler] *)
Definition try_except {A} (body : M A) (handler : exn → M A) : M A := λ db,
  match body db with
  | (Raise e, db') => handler e db'
  | r => r
  end.

(** [for x in xs: body] *)
Fixpoint for_each {A} (xs : list A) (body : A → M unit) : M unit :=
  match xs with
  | [] => mret tt
  | x :: xs' => body x ≫= λ _, for_each xs' body
  end.

Definition to_ObjectId (s : string) : M oid := λ db,
  match ObjectId s with
  | Some o => (Return o, db)
  | None => (Raise InvalidId, db)
  end.

(** [db[name].insert_one(d).inserted_id], for a document without an
    [_id] (the handlers insert no other): the store generates one that no
    document of the collection has. *)
Definition insert_one (name : string) (d : dict) : M oid := λ db,
  let c := coll name db in
  let k := fresh (dom c) in
  (Return k, <[name := <[k := d]> c]> db).

(** The store encodes an integer in at most eight bytes. *)
Definition int64 (n : Z) : bool := (- 2 ^ 63 <=? n) && (n <? 2 ^ 63).

(** Whether the store's encoder takes [v]: every integer in it fits. *)
Fixpoint bson_encodable (v : value) : bool :=
  match v with
  | VInt n => int64 n
  | VList l => forallb bson_encodable l
  | VDict d => forallb (λ kv, bson_encodable (snd kv)) d
  | _ => true
  end.

Definition dict_encodable (d : dict) : bool :=
  bool_decide (map_Forall (λ _ v, bson_encodable v = true) d).

(** [insert_one] on a document that holds integers of the request: the
    encoder raises [OverflowError] on one that does not fit, before
    anything is written. *)
Definition insert_one_encoded (name : string) (d : dict) : M oid :=
  if dict_encodable d then insert_one name d else raise OverflowError.

(** [db[name].find_one(q)] *)
Definition find_one (name : string) (q : query) : M (option dict) := λ db,
  (Return (with_id <$> first_match q (coll name db)), db).

(** [list(db[name].find(q))] *)
Definition find (name : string) (q : query) : M (list dict) := λ db,
  (Return (with_id <$> find_matches q (coll name db)), db).

(** [db[name].update_one(q, u).matched_count] *)
Definition update_one (name : string) (q : query) (u : update) : M Z := λ db,
  let c := coll name db in
  match first_match q c with
  | None => (Return 0, db)
  | Some (k, d) =>
      match apply_update u d with
      | Some d' => (Return 1, <[name := <[k := d']> c]> db)
      | None => (Raise WriteError, db)
      end
  end.

(** [db[name].delete_one(q).deleted_count] *)
Definition delete_one (name : string) (q : query) : M Z := λ db,
  let c := coll name db in
  match first_match q c with
  | None => (Return 0, db)
  | Some (k, _) => (Return 1, <[name := delete k c]> db)
  end.

(** ** Schemas (lines 61-76) *)

Record LoginReq := { email : string; password : string }.

Record OrderItem := {
  product_id : string;
  title : string;
  price : float;
  quantity : Z;
}.

Record OrderIn := {
  user_email : string;
  items : list OrderItem;
  total : float;
}.

(** [model_dump()] *)
Definition OrderItem_model_dump (i : OrderItem) : value :=
  VDict [("product_id", VStr (product_id i)); ("title", VStr (title i));
         ("price", VFloat (price i)); ("quantity", VInt (quantity i))].

Definition OrderIn_model_dump (o : OrderIn) : dict :=
  list_to_map [("user_email", VStr (user_email o));
               ("items", VList (OrderItem_model_dump <$> items o));
               ("total", VFloat (total o))].

(** [d.update(kvs)] *)
Definition dict_update (d : dict) (kvs : list (string * value)) : dict :=
  fold_left (λ acc kv, <[kv.1 := kv.2]> acc) kvs d.

(** [d[k]] *)
Definition getitem (d : dict) (k : string) : M value :=
  match d !! k with
  | Some v => mret v
  | None => raise (KeyError k)
  end.

(** [sum(xs)]: the additions start from the int [0]. *)
Definition sum (xs : list float) : float := fold_left float_add xs (float_of_int 0).

(** ** Handlers *)

(** Lines 37-39. *)
Definition require_admin (x_admin : option string) : M unit :=
  if negb (bool_decide (x_admin = Some "true")) then
    raise (HTTPException 403 "Admin access required")
  else mret tt.

(** The [try] block of lines 139-142. *)
Definition delete_product_try (product_id : string) : M dict :=
  k ← to_ObjectId product_id;
  deleted_count ← delete_one "product" [("_id", CEqOid k)];
  if deleted_count =? 0 then raise (HTTPException 404 "Product not found")
  else mret {["status" := VStr "ok"]}.

(** Lines 135-144. *)
Definition delete_product (product_id : string) (x_admin : option string) : M dict :=
  require_admin x_admin ;;
  try_except (delete_product_try product_id)
    (λ _, raise (HTTPException 400 "Invalid product id")).

(** Lines 169-181. [find_one] gives [None] or a document; both [not user]
    and the password test lead to the same 401. *)
Definition login (req : LoginReq) : M dict :=
  user ← find_one "user" [("email", CEqStr (email req))];
  match user with
  | None => raise (HTTPException 401 "Invalid credentials")
  | Some user =>
      if dict_empty user || py_ne_str (get user "password") (password req) then
        raise (HTTPException 401 "Invalid credentials")
      else if negb (truthy (get user "approved")) then
        raise (HTTPException 403 "Account awaiting approval")
      else
        e ← getitem user "email";
        mret (list_to_map [("email", e); ("name", get user "name");
                           ("role", get_or user "role" (VStr "customer"));
                           ("approved", VBool true)])
  end.

(** [calc_total] of line 205, on quantities that convert to a float (as
    every integer of at most eight bytes does). *)
Definition calc_total (order : OrderIn) : float :=
  sum ((λ i, float_mul (price i) (float_of_int (quantity i))) <$> items order).

(** The order document of lines 208-210. *)
Definition order_doc (now : datetime) (order : OrderIn) : dict :=
  dict_update (OrderIn_model_dump order)
    [("status", VStr "pending"); ("created_at", VDatetime now); ("updated_at", VDatetime now)].

(** The body of the loop of lines 213-220, for one item. *)
Definition decrement_stock (now : datetime) (item : OrderItem) : M unit :=
  try_except
    (k ← to_ObjectId (product_id item);
     update_one "product"
       [("_id", CEqOid k); ("stock_qty", CGte (quantity item))]
       {| u_inc := [("stock_qty", - quantity item)];
          u_set := [("updated_at", VDatetime now)] |} ;;
     mret tt)
    (λ _, mret tt).

(** Lines 202-224; [now] is what [datetime.now(timezone.utc)] returns.
    The insertion of line 222 is outside the [try]: what the store raises
    there reaches the caller, after the loop has run. *)
Definition create_order (now : datetime) (order : OrderIn) : M (option dict) :=
  if float_ne (round2 (calc_total order)) (round2 (total order)) then
    raise (HTTPException 400 "Total mismatch")
  else
    let doc := order_doc now order in
    for_each (items order) (decrement_stock now) ;;
    inserted_id ← insert_one_encoded "order" doc;
    created ← find_one "order" [("_id", CEqOid inserted_id)];
    mret (oid_to_str created).

(** The filter [q] of lines 229-231. *)
Definition list_orders_query (email x_admin : option string) : query :=
  match email with
  | Some e =>
      if negb (String.eqb e "") && negb (bool_decide (x_admin = Some "true")) then
        [("user_email", CEqStr e)]
      else []
  | None => []
  end.

(** Lines 227-233. *)
Definition list_orders (email x_admin : option string) : M (list dict) :=
  orders ← find "order" (list_orders_query email x_admin);
  mret (oid_to_str_dict <$> orders).

(** The store a handler leaves behind. *)
Definition exec {A} (m : M A) (db : DB) : DB := (m db).2.

(** ** Concurrent submissions *)

(** A call of [create_order] writes to the store once per item and once
    for the insertion; each write is one operation of the store, and the
    operations of concurrent calls reach it in some interleaving. *)
Inductive store_op :=
  | OpDecrement (now : datetime) (item : OrderItem)
  | OpInsert (doc : dict).

Definition run_op (op : store_op) : M unit :=
  match op with
  | OpDecrement now item => decrement_stock now item
  | OpInsert doc => insert_one_encoded "order" doc ;; mret tt
  end.

Definition create_order_ops (now : datetime) (order : OrderIn) : list store_op :=
  if float_ne (round2 (calc_total order)) (round2 (total order)) then []
  else (OpDecrement now <$> items order) ++ [OpInsert (order_doc now order)].

(** Whether the conditional update for [item] matches a document of [db]. *)
Definition decrement_applies (item : OrderItem) (db : DB) : bool :=
  match ObjectId (product_id item) with
  | Some k =>
      match first_match [("_id", CEqOid k); ("stock_qty", CGte (quantity item))]
                        (coll "product" db) with
      | Some _ => true
      | None => false
      end
  | None => false
  end.

(** The number of conditional updates that apply along a schedule. *)
Fixpoint applied (sched : list store_op) (db : DB) : nat :=
  match sched with
  | [] => 0%nat
  | op :: rest =>
      ((match op with
        | OpDecrement _ item => if decrement_applies item db then 1 else 0
        | OpInsert _ => 0
        end) + applied rest (exec (run_op op) db))%nat
  end.

(** [interleave l1 l2 l]: [l] merges [l1] and [l2], keeping the order of each. *)
Inductive interleave {A : Type} : list A → list A → list A → Prop :=
  | interleave_nil : interleave [] [] []
  | interleave_l x l1 l2 l : interleave l1 l2 l → interleave (x :: l1) l2 (x :: l)
  | interleave_r x l1 l2 l : interleave l1 l2 l → interleave l1 (x :: l2) (x :: l).

End Model.

Abbreviation dict := (gmap string value).
Abbreviation collection := (gmap oid dict).
Abbreviation DB := (gmap string (gmap oid dict)).

(** ** Schemas of the product and user handlers (lines 44-58) *)

Module ProductIn.
Section Fields.
Context `{PyRuntime}.

Record t := {
  title : string;
  description : option string;
  price : float;
  category : string;
  image : option string;
  in_stock : bool;
  stock_qty : Z;
}.

End Fields.
End ProductIn.

Module UserRegister.

Record t := {
  name : string;
  email : string;
  password : string;
  role : string;
}.

End UserRegister.

(** ** The product and user handlers *)

Section Management.
Context `{PyRuntime}.

(** An [Optional[str]] field in a dumped model. *)
Definition optional_str (s : option string) : value :=
  match s with
  | Some s => VStr s
  | None => VNone
  end.

(** [product.model_dump()] *)
Definition ProductIn_model_dump (p : ProductIn.t) : dict :=
  list_to_map [("title", VStr (ProductIn.title p));
               ("description", optional_str (ProductIn.description p));
               ("price", VFloat (ProductIn.price p));
               ("category", VStr (ProductIn.category p));
               ("image", optional_str (ProductIn.image p));
               ("in_stock", VBool (ProductIn.in_stock p));
               ("stock_qty", VInt (ProductIn.stock_qty p))].

(** The document of lines 127-129. *)
Definition product_doc (now : datetime) (product : ProductIn.t) : dict :=
  dict_update (ProductIn_model_dump product)
    [("created_at", VDatetime now); ("updated_at", VDatetime now)].

(** Lines 124-132. *)
Definition create_product (now : datetime) (product : ProductIn.t)
    (x_admin : option string) : M (option dict) :=
  require_admin x_admin ;;
  let data := product_doc now product in
  inserted_id ← insert_one "product" data;
  created ← find_one "product" [("_id", CEqOid inserted_id)];
  mret (oid_to_str created).

(** The document of lines 155-163; the two timestamps are two readings
    of the clock. *)
Definition user_doc (now1 now2 : datetime) (user : UserRegister.t) : dict :=
  let approved := if String.eqb (UserRegister.role user) "admin" then true else false in
  list_to_map [("name", VStr (UserRegister.name user));
               ("email", VStr (UserRegister.email user));
               ("password", VStr (UserRegister.password user));
               ("role", VStr (UserRegister.role user));
               ("approved", VBool approved);
               ("created_at", VDatetime now1);
               ("updated_at", VDatetime now2)].

(** Lines 149-166.  [if existing] is false for [None] and for an empty
    dictionary. *)
Definition register_user (now1 now2 : datetime) (user : UserRegister.t) : M (option dict) :=
  existing ← find_one "user" [("email", CEqStr (UserRegister.email user))];
  if match existing with
     | Some d => negb (dict_empty d)
     | None => false
     end
  then raise (HTTPException 400 "Email already registered")
  else
    let doc := user_doc now1 now2 user in
    inserted_id ← insert_one "user" doc;
    created ← find_one "user" [("_id", CEqOid inserted_id)];
    mret (oid_to_str created).

(** [list(db[name].find(q, {field: 0}))]: the matching documents without
    [field]. *)
Definition find_without (name : string) (q : query) (field : string) : M (list dict) := λ db,
  (Return (delete field <$> (with_id <$> find_matches q (coll name db))), db).

(** Lines 184-188. *)
Definition list_users (x_admin : option string) : M (list dict) :=
  require_admin x_admin ;;
  users ← find_without "user" [] "password";
  mret (oid_to_str_dict <$> users).

(** Lines 191-197. *)
Definition approve_user (now : datetime) (email : string) (x_admin : option string) : M dict :=
  require_admin x_admin ;;
  matched_count ← update_one "user" [("email", CEqStr email)]
                    {| u_inc := [];
                       u_set := [("approved", VBool true); ("updated_at", VDatetime now)] |};
  if matched_count =? 0 then raise (HTTPException 404 "User not found")
  else mret {["status" := VStr "approved"]}.

(** No product of the store has a negative integer [stock_qty]. *)
Definition stock_nonneg (db : DB) : Prop :=
  ∀ (k : oid) (d : dict) (m : Z),
    coll "product" db !! k = Some d → d !! "stock_qty" = Some (VInt m) → 0 ≤ m.

(** No two user documents of the store carry the same [email]. *)
Definition emails_unique (db : DB) : Prop :=
  ∀ (k1 k2 : oid) (u1 u2 : dict) (e : string),
    coll "user" db !! k1 = Some u1 → coll "user" db !! k2 = Some u2 →
    u1 !! "email" = Some (VStr e) → u2 !! "email" = Some (VStr e) → k1 = k2.

End Management.

(** ** A runtime with decimal fixed-point numbers

    Numbers carry three decimals and are kept as their count of
    thousandths; a timestamp is kept as its ISO-8601 text.  The examples
    below are evaluated in it. *)
Module Fixed3.

Definition of_int (n : Z) : Z := 1000 * n.
Definition mul (x y : Z) : Z := x * y / 1000.
Definition ne (x y : Z) : bool := negb (x =? y).
Definition ge_int (x n : Z) : bool := 1000 * n <=? x.

(** To the nearest hundredth, ties to even. *)
Definition round (x : Z) : Z :=
  let q := x / 10 in
  let r := x mod 10 in
  if r <? 5 then 10 * q
  else if 5 <? r then 10 * (q + 1)
  else if Z.even q then 10 * q else 10 * (q + 1).

Definition repr (x : Z) : string := pretty x ++ "e-3".
Definition quote (s : string) : string := "'" ++ s ++ "'".

Definition runtime : PyRuntime := {|
  float := Z;
  float_of_int := of_int;
  float_add := Z.add;
  float_mul := mul;
  float_ne := ne;
  float_ge_int := ge_int;
  round2 := round;
  float_repr := repr;
  str_repr := quote;
  datetime := string;
  isoformat := λ t, t;
  datetime_str := λ t, t;
  datetime_repr := quote;
|}.

End Fixed3.

(** ** Sample data, in the fixed-point runtime *)
Module Sample.
#[local] Existing Instance Fixed3.runtime.

Definition now : datetime := "2024-05-01T12:00:00+00:00".
Definition later : datetime := "2024-05-01T12:00:07+00:00".

Definition laptop_id : oid := 0x65a1b2c3d4e5f60718293a4b%N.

(** A product with eleven units in stock. *)
Definition laptop : dict :=
  list_to_map [("title", VStr "Laptop"); ("price", VFloat 25500);
               ("category", VStr "Computers"); ("in_stock", VBool true);
               ("stock_qty", VInt 11); ("created_at", VDatetime "2024-04-01T09:00:00+00:00");
               ("updated_at", VDatetime "2024-04-01T09:00:00+00:00")].

(** An approved customer. *)
Definition ann : dict :=
  list_to_map [("name", VStr "Ann"); ("email", VStr "ann@example.com");
               ("password", VStr "s3cret"); ("role", VStr "customer");
               ("approved", VBool true)].

Definition db : DB :=
  {[ "product" := {[ laptop_id := laptop ]}; "user" := {[ 7%N := ann ]} ]}.

(** Two laptops at 25.50 each, total 51.00. *)
Definition two_laptops : OrderItem :=
  {| product_id := "65a1b2c3d4e5f60718293a4b"; title := "Laptop";
     price := 25500; quantity := 2 |}.

Definition order : OrderIn :=
  {| user_email := "ann@example.com"; items := [two_laptops]; total := 51000 |}.

(** The same items with a total of 50.99. *)
Definition short_order : OrderIn :=
  {| user_email := "ann@example.com"; items := [two_laptops]; total := 50990 |}.

(** More laptops than the store has. *)
Definition twenty_laptops : OrderItem :=
  {| product_id := "65a1b2c3d4e5f60718293a4b"; title := "Laptop";
     price := 25500; quantity := 20 |}.

Definition big_order : OrderIn :=
  {| user_email := "ann@example.com"; items := [twenty_laptops]; total := 510000 |}.

(** Half of the stock, rounded up, asked for by two customers at once. *)
Definition six_laptops : OrderItem :=
  {| product_id := "65a1b2c3d4e5f60718293a4b"; title := "Laptop";
     price := 25500; quantity := 6 |}.

Definition ann_half : OrderIn :=
  {| user_email := "ann@example.com"; items := [six_laptops]; total := 153000 |}.

Definition bob_half : OrderIn :=
  {| user_email := "bob@example.com"; items := [six_laptops]; total := 153000 |}.

(** A free item in a quantity of 2^63, one more than eight bytes hold. *)
Definition too_many : OrderItem :=
  {| product_id := "65a1b2c3d4e5f60718293a4b"; title := "Leaflet";
     price := 0; quantity := 2 ^ 63 |}.

Definition huge_order : OrderIn :=
  {| user_email := "ann@example.com"; items := [too_many]; total := 0 |}.


(** The spec's rejected request: two units at 10.00 against a total of 19.99. *)
Definition rejected_order : OrderIn :=
  {| user_email := "ann@example.com";
     items := [{| product_id := "65a1b2c3d4e5f60718293a4b"; title := "Cable";
                  price := 10000; quantity := 2 |}];
     total := 19990 |}.

End Sample.

(** ** Sample users and products *)
Module SampleMore.
#[local] Existing Instance Fixed3.runtime.

(** A customer who is not registered yet. *)
Definition bob : UserRegister.t :=
  {| UserRegister.name := "Bob"; UserRegister.email := "bob@example.com";
     UserRegister.password := "hunter2"; UserRegister.role := "customer" |}.

(** A second registration under Ann's email. *)
Definition ann_again : UserRegister.t :=
  {| UserRegister.name := "Ann B"; UserRegister.email := "ann@example.com";
     UserRegister.password := "other"; UserRegister.role := "customer" |}.

(** A product to add: ten mice at 19.99. *)
Definition mouse : ProductIn.t :=
  {| ProductIn.title := "Mouse"; ProductIn.description := None;
     ProductIn.price := 19990; ProductIn.category := "Computers";
     ProductIn.image := None; ProductIn.in_stock := true;
     ProductIn.stock_qty := 10 |}.

End SampleMore.

(** ** ObjectId rendering *)

Lemma hex_be_length w n : String.length (hex_be w n) = w.
Proof. induction w as [|w IH]; simpl; [done | by rewrite IH]. Qed.

Lemma hex_char_inj (a b : N) :
  (a < 16)%N → (b < 16)%N → hex_char a = hex_char b → a = b.
Proof.
  intros Ha Hb Heq. unfold hex_char in Heq.
  apply (f_equal N_of_ascii) in Heq.
  rewrite !N_ascii_embedding in Heq.
  - destruct (N.ltb_spec a 10), (N.ltb_spec b 10); lia.
  - destruct (N.ltb_spec b 10); lia.
  - destruct (N.ltb_spec a 10); lia.
Qed.

(** Equal renderings of width [w] agree on the low [w] digits. *)
Lemma hex_be_inj w (n m : N) :
  hex_be w n = hex_be w m → (n mod 16 ^ N.of_nat w = m mod 16 ^ N.of_nat w)%N.
Proof.
  induction w as [|w IH]; intros Heq.
  - simpl. by rewrite !N.mod_1_r.
  - simpl in Heq. injection Heq as Hd Hrest.
    apply hex_char_inj in Hd; [| by apply N.mod_lt | by apply N.mod_lt].
    specialize (IH Hrest).
    rewrite Nat2N.inj_succ, N.pow_succ_r', (N.mul_comm 16).
    rewrite !N.Div0.mod_mul_r. congruence.
Qed.

Lemma oid_width_bound (n : N) : (n < 16 ^ N.of_nat (oid_width n))%N.
Proof.
  unfold oid_width.
  assert (Hn : (n < 16 ^ (N.log2 n / 4 + 1))%N).
  { replace 16%N with (2 ^ 4)%N by done. rewrite <- N.pow_mul_r.
    destruct (decide (n = 0%N)) as [->|Hnz]; [done|].
    eapply N.lt_le_trans; [apply N.log2_spec; lia|].
    apply N.pow_le_mono_r; [done|].
    pose proof (N.Div0.mod_le (N.log2 n) 4).
    pose proof (N.div_mod (N.log2 n) 4 ltac:(done)).
    pose proof (N.mod_lt (N.log2 n) 4 ltac:(done)). lia. }
  eapply N.lt_le_trans; [exact Hn|].
  apply N.pow_le_mono_r; [done|]. lia.
Qed.

(** [str] tells ObjectIds apart. *)
Lemma oid_str_inj (a b : oid) : oid_str a = oid_str b → a = b.
Proof.
  unfold oid_str. intros Heq.
  assert (Hw : oid_width a = oid_width b).
  { apply (f_equal String.length) in Heq. by rewrite !hex_be_length in Heq. }
  rewrite Hw in Heq. apply hex_be_inj in Heq.
  pose proof (oid_width_bound a) as Ha. pose proof (oid_width_bound b) as Hb.
  rewrite Hw in Ha.
  by rewrite !N.mod_small in Heq.
Qed.

Example oid_str_1 : oid_str 0x65a1b2c3d4e5f60718293a4b = "65a1b2c3d4e5f60718293a4b".
Proof. vm_compute. reflexivity. Qed.

Example ObjectId_1 : ObjectId "65A1b2c3d4e5f60718293a4b" = Some 0x65a1b2c3d4e5f60718293a4b%N.
Proof. vm_compute. reflexivity. Qed.

Example ObjectId_short : ObjectId "abc" = None.
Proof. reflexivity. Qed.

(** ** Facts about the store *)

Section Store.
Context `{PyRuntime}.
Implicit Types (db : DB) (c : collection) (d : dict) (q : query) (k : oid).

Lemma coll_insert name c db : coll name (<[name := c]> db) = c.
Proof. unfold coll. by rewrite lookup_insert_eq. Qed.

Lemma coll_insert_ne name name' c db :
  name ≠ name' → coll name' (<[name := c]> db) = coll name' db.
Proof. intros Hne. unfold coll. by rewrite lookup_insert_ne. Qed.

Lemma with_id_lookup_id (kd : oid * dict) : with_id kd !! "_id" = Some (VOid kd.1).
Proof. unfold with_id. by rewrite lookup_insert_eq. Qed.

Lemma with_id_lookup_ne (kd : oid * dict) (f : string) :
  f ≠ "_id" → with_id kd !! f = kd.2 !! f.
Proof. intros Hne. unfold with_id. by rewrite lookup_insert_ne. Qed.

Lemma find_matches_elem q c k d :
  (k, d) ∈ find_matches q c ↔ c !! k = Some d ∧ matches q (with_id (k, d)) = true.
Proof.
  unfold find_matches. rewrite list_elem_of_filter, elem_of_map_to_list. tauto.
Qed.

Lemma first_match_Some q c (kd : oid * dict) :
  first_match q c = Some kd → c !! kd.1 = Some kd.2 ∧ matches q (with_id kd) = true.
Proof.
  intros Hh. apply head_Some_elem_of in Hh. destruct kd as [k d].
  by apply find_matches_elem in Hh.
Qed.

Lemma first_match_None q c k d :
  first_match q c = None → c !! k = Some d → matches q (with_id (k, d)) = false.
Proof.
  intros Hh Hk. apply head_None in Hh.
  destruct (matches q (with_id (k, d))) eqn:Hm; [|done].
  assert (Hin : (k, d) ∈ find_matches q c) by by apply find_matches_elem.
  rewrite Hh in Hin. by apply elem_of_nil in Hin.
Qed.

(** A filter on [_id] can only match the document stored under it. *)
Lemma matches_id q k (kd : oid * dict) :
  ("_id", CEqOid k) ∈ q → matches q (with_id kd) = true → kd.1 = k.
Proof.
  intros Hin Hm. unfold matches in Hm.
  rewrite forallb_forall in Hm. apply list_elem_of_In in Hin.
  specialize (Hm _ Hin). simpl in Hm. rewrite with_id_lookup_id in Hm.
  simpl in Hm. by apply N.eqb_eq in Hm.
Qed.

Lemma first_match_id q c k :
  ("_id", CEqOid k) ∈ q →
  first_match q c =
    match c !! k with
    | Some d => if matches q (with_id (k, d)) then Some (k, d) else None
    | None => None
    end.
Proof.
  intros Hin. destruct (first_match q c) as [[k' d']|] eqn:Hf.
  - destruct (first_match_Some _ _ _ Hf) as [Hk Hm]. simpl in Hk.
    pose proof (matches_id _ _ _ Hin Hm) as Heq. simpl in Heq. subst k'.
    by rewrite Hk, Hm.
  - destruct (c !! k) as [d|] eqn:Hk; [|done].
    by rewrite (first_match_None _ _ _ _ Hf Hk).
Qed.

(** [find_one({"_id": k})] reads the document stored under [k]. *)
Lemma first_match_by_id c k :
  first_match [("_id", CEqOid k)] c = (k,.) <$> c !! k.
Proof.
  rewrite (first_match_id _ _ k) by apply list_elem_of_here.
  destruct (c !! k) as [d|]; [|done]. simpl.
  unfold matches. simpl. rewrite with_id_lookup_id. simpl.
  by rewrite N.eqb_refl.
Qed.

(** The filter of the conditional decrement, on the document under [k]. *)
Lemma matches_stock k n d :
  matches [("_id", CEqOid k); ("stock_qty", CGte n)] (with_id (k, d)) =
    match d !! "stock_qty" with
    | Some v => cond_holds (CGte n) v
    | None => false
    end.
Proof.
  unfold matches. simpl. rewrite with_id_lookup_id. simpl. rewrite N.eqb_refl.
  rewrite with_id_lookup_ne by done. simpl.
  destruct (d !! "stock_qty"); [by rewrite andb_true_r | done].
Qed.

End Store.

(** ** The stock loop *)

Section Orders.
Context `{PyRuntime}.
Implicit Types (db : DB) (c : collection) (d : dict) (k : oid)
  (now : datetime) (item : OrderItem) (order : OrderIn).

Lemma decrement_applies_spec item db :
  decrement_applies item db =
    match ObjectId (product_id item) with
    | Some k =>
        match coll "product" db !! k with
        | Some d =>
            match d !! "stock_qty" with
            | Some v => cond_holds (CGte (quantity item)) v
            | None => false
            end
        | None => false
        end
    | None => false
    end.
Proof.
  unfold decrement_applies. destruct (ObjectId (product_id item)) as [k|]; [|done].
  rewrite (first_match_id _ _ k) by apply list_elem_of_here.
  destruct (coll "product" db !! k) as [d|]; [|done].
  rewrite matches_stock.
  destruct (d !! "stock_qty") as [v|]; [|done].
  by destruct (cond_holds (CGte (quantity item)) v).
Qed.

(** The loop body never raises: whatever goes wrong inside is swallowed. *)
Lemma decrement_stock_returns now item db :
  decrement_stock now item db = (Return tt, exec (decrement_stock now item) db).
Proof.
  unfold exec, decrement_stock, try_except, mbind, M_bind, to_ObjectId, update_one, mret, M_ret.
  destruct (ObjectId (product_id item)) as [k|]; [|done].
  destruct (first_match _ _) as [[k' d]|]; [|done].
  by destruct (apply_update _ d).
Qed.

(** A conditional update that matches nothing leaves the store as it was. *)
Lemma decrement_stock_miss now item db :
  decrement_applies item db = false → exec (decrement_stock now item) db = db.
Proof.
  unfold decrement_applies, exec, decrement_stock, try_except, mbind, M_bind,
    to_ObjectId, update_one, mret, M_ret.
  destruct (ObjectId (product_id item)) as [k|]; [|done].
  by destruct (first_match _ _) as [[k' d]|].
Qed.

(** A conditional update that matches takes the quantity off the stock
    and stamps [updated_at]. *)
Lemma decrement_stock_hit now item db k d (m : Z) :
  ObjectId (product_id item) = Some k →
  coll "product" db !! k = Some d →
  d !! "stock_qty" = Some (VInt m) →
  quantity item ≤ m →
  exec (decrement_stock now item) db =
    <["product" := <[k := <["updated_at" := VDatetime now]>
                            (<["stock_qty" := VInt (m - quantity item)]> d)]>
                     (coll "product" db)]> db.
Proof.
  intros Hk Hd Hs Hle.
  unfold exec, decrement_stock, try_except, mbind, M_bind, to_ObjectId, update_one, mret, M_ret.
  rewrite Hk. rewrite (first_match_id _ _ k) by apply list_elem_of_here.
  rewrite Hd, matches_stock, Hs. simpl.
  destruct (Z.leb_spec (quantity item) m) as [_|?]; [|lia].
  unfold apply_update. simpl. rewrite Hs. simpl.
  by replace (m + - quantity item) with (m - quantity item) by lia.
Qed.

(** The loop only ever touches the product collection. *)
Lemma decrement_stock_frame now item db name :
  name ≠ "product" → exec (decrement_stock now item) db !! name = db !! name.
Proof.
  intros Hne.
  unfold exec, decrement_stock, try_except, mbind, M_bind, to_ObjectId, update_one, mret, M_ret.
  destruct (ObjectId (product_id item)) as [k|]; [|done].
  destruct (first_match _ _) as [[k' d]|]; [|done].
  destruct (apply_update _ d); [|done]. simpl. by rewrite lookup_insert_ne.
Qed.

Lemma stock_loop_returns now (l : list OrderItem) db :
  for_each l (decrement_stock now) db =
    (Return tt, exec (for_each l (decrement_stock now)) db).
Proof.
  revert db. induction l as [|item l IH]; intros db; [done|].
  unfold exec. simpl. unfold mbind, M_bind.
  rewrite decrement_stock_returns. by rewrite IH.
Qed.

Lemma stock_loop_cons now item (l : list OrderItem) db :
  exec (for_each (item :: l) (decrement_stock now)) db =
    exec (for_each l (decrement_stock now)) (exec (decrement_stock now item) db).
Proof.
  unfold exec at 1. simpl. unfold mbind, M_bind.
  by rewrite decrement_stock_returns, stock_loop_returns.
Qed.

Lemma stock_loop_app now (l1 l2 : list OrderItem) db :
  exec (for_each (l1 ++ l2) (decrement_stock now)) db =
    exec (for_each l2 (decrement_stock now)) (exec (for_each l1 (decrement_stock now)) db).
Proof.
  revert db. induction l1 as [|item l1 IH]; intros db; [done|].
  rewrite <- app_comm_cons, !stock_loop_cons. apply IH.
Qed.

Lemma stock_loop_frame now (l : list OrderItem) db name :
  name ≠ "product" → exec (for_each l (decrement_stock now)) db !! name = db !! name.
Proof.
  intros Hne. revert db. induction l as [|item l IH]; intros db; [done|].
  by rewrite stock_loop_cons, IH, decrement_stock_frame.
Qed.

(** What [create_order] does once the total has been accepted: the loop
    runs, then the store takes the order document or its encoder raises. *)
Lemma create_order_checked now order db :
  float_ne (round2 (calc_total order)) (round2 (total order)) = false →
  let db1 := exec (for_each (items order) (decrement_stock now)) db in
  let k := fresh (dom (coll "order" db)) in
  create_order now order db =
    if dict_encodable (order_doc now order) then
      (Return (Some (oid_to_str_dict (with_id (k, order_doc now order)))),
       <["order" := <[k := order_doc now order]> (coll "order" db)]> db1)
    else (Raise OverflowError, db1).
Proof.
  intros Hok. simpl. unfold create_order. rewrite Hok.
  unfold mbind, M_bind. rewrite stock_loop_returns.
  unfold insert_one_encoded. destruct (dict_encodable (order_doc now order)); [|done].
  unfold insert_one, find_one, mret, M_ret.
  assert (Hc : coll "order" (exec (for_each (items order) (decrement_stock now)) db)
               = coll "order" db).
  { unfold coll. by rewrite stock_loop_frame. }
  rewrite Hc, coll_insert, first_match_by_id, lookup_insert_eq. done.
Qed.

Lemma create_order_accepted now order db :
  float_ne (round2 (calc_total order)) (round2 (total order)) = false →
  dict_encodable (order_doc now order) = true →
  let db1 := exec (for_each (items order) (decrement_stock now)) db in
  let k := fresh (dom (coll "order" db)) in
  create_order now order db =
    (Return (Some (oid_to_str_dict (with_id (k, order_doc now order)))),
     <["order" := <[k := order_doc now order]> (coll "order" db)]> db1).
Proof.
  intros Hok Henc. simpl. rewrite (create_order_checked _ _ _ Hok). simpl.
  by rewrite Henc.
Qed.

(** The order document of a request whose quantities fit in eight bytes
    is one the store encodes. *)
Lemma order_doc_encodable now order :
  Forall (λ i, int64 (quantity i) = true) (items order) →
  dict_encodable (order_doc now order) = true.
Proof.
  intros Hfit. apply bool_decide_eq_true_2.
  unfold order_doc, dict_update, OrderIn_model_dump. simpl.
  do 4 (apply map_Forall_insert_2; [done|]).
  apply map_Forall_insert_2.
  { assert (Hl : forallb bson_encodable (OrderItem_model_dump <$> items order) = true).
    { induction Hfit as [|i l Hi _ IH]; [done|].
      rewrite fmap_cons. cbn [forallb]. rewrite IH.
      unfold OrderItem_model_dump. simpl. by rewrite Hi. }
    exact Hl. }
  apply map_Forall_insert_2; [done|]. apply map_Forall_empty.
Qed.

End Orders.

(** ** The order document and the record returned *)

Section Rendering.
Context `{PyRuntime}.
Implicit Types (db : DB) (d : dict) (k : oid) (now : datetime) (order : OrderIn).

Lemma order_doc_status now order : order_doc now order !! "status" = Some (VStr "pending").
Proof. unfold order_doc, dict_update. simpl. repeat (rewrite lookup_insert_ne by done). by rewrite lookup_insert_eq. Qed.

Lemma order_doc_created_at now order :
  order_doc now order !! "created_at" = Some (VDatetime now).
Proof. unfold order_doc, dict_update. simpl. repeat (rewrite lookup_insert_ne by done). by rewrite lookup_insert_eq. Qed.

Lemma order_doc_updated_at now order :
  order_doc now order !! "updated_at" = Some (VDatetime now).
Proof. unfold order_doc, dict_update. simpl. by rewrite lookup_insert_eq. Qed.

Lemma order_doc_total now order : order_doc now order !! "total" = Some (VFloat (total order)).
Proof.
  unfold order_doc, dict_update, OrderIn_model_dump. simpl.
  repeat (rewrite lookup_insert_ne by done). by rewrite lookup_insert_eq.
Qed.

Lemma order_doc_items now order :
  order_doc now order !! "items" = Some (VList (OrderItem_model_dump <$> items order)).
Proof.
  unfold order_doc, dict_update, OrderIn_model_dump. simpl.
  repeat (rewrite lookup_insert_ne by done). by rewrite lookup_insert_eq.
Qed.

Lemma order_doc_user_email now order :
  order_doc now order !! "user_email" = Some (VStr (user_email order)).
Proof.
  unfold order_doc, dict_update, OrderIn_model_dump. simpl.
  repeat (rewrite lookup_insert_ne by done). by rewrite lookup_insert_eq.
Qed.

(** A document read from the store is rendered with [id] in place of [_id]
    and its datetimes in ISO format. *)
Lemma oid_to_str_with_id k d :
  oid_to_str_dict (with_id (k, d)) =
    iso_value <$> <["id" := VStr (oid_str k)]> (delete "_id" d).
Proof.
  unfold oid_to_str_dict, dict_empty.
  rewrite bool_decide_eq_false_2.
  - rewrite with_id_lookup_id. simpl. unfold with_id. simpl.
    by rewrite delete_insert_eq.
  - unfold with_id. simpl. rewrite dom_insert_L. set_solver.
Qed.

Lemma rendered_id k d : oid_to_str_dict (with_id (k, d)) !! "id" = Some (VStr (oid_str k)).
Proof. by rewrite oid_to_str_with_id, lookup_fmap, lookup_insert_eq. Qed.

Lemma rendered_no_id k d : oid_to_str_dict (with_id (k, d)) !! "_id" = None.
Proof.
  rewrite oid_to_str_with_id, lookup_fmap, lookup_insert_ne by done. by rewrite lookup_delete_eq.
Qed.

Lemma rendered_field k d (f : string) :
  f ≠ "id" → f ≠ "_id" →
  oid_to_str_dict (with_id (k, d)) !! f = iso_value <$> d !! f.
Proof.
  intros H1 H2.
  rewrite oid_to_str_with_id, lookup_fmap, lookup_insert_ne by done. by rewrite lookup_delete_ne.
Qed.

End Rendering.

(** ** Order placement *)

Section Placement.
Context `{PyRuntime}.
Implicit Types (db : DB) (d : dict) (k : oid) (now : datetime)
  (item : OrderItem) (order : OrderIn).

(** C1. When [create_order] returns, the rounded total of the request
    equals the rounded sum of price times quantity over its items, and the
    one document it has added to the order store carries that total and
    those items; a request whose rounded totals differ leaves the order
    store as it was. *)
Theorem create_order_total_invariant now order db :
  (∀ r db', create_order now order db = (Return r, db') →
     float_ne (round2 (calc_total order)) (round2 (total order)) = false ∧
     ∃ k, coll "order" db !! k = None ∧
          coll "order" db' = <[k := order_doc now order]> (coll "order" db) ∧
          order_doc now order !! "total" = Some (VFloat (total order)) ∧
          order_doc now order !! "items" =
            Some (VList (OrderItem_model_dump <$> items order)))
  ∧ (float_ne (round2 (calc_total order)) (round2 (total order)) = true →
     coll "order" (exec (create_order now order) db) = coll "order" db).
Proof.
  split.
  - intros r db' Hrun.
    destruct (float_ne (round2 (calc_total order)) (round2 (total order))) eqn:Hne.
    + unfold create_order in Hrun. rewrite Hne in Hrun. discriminate.
    + split; [done|].
      rewrite (create_order_checked _ _ _ Hne) in Hrun. simpl in Hrun.
      destruct (dict_encodable (order_doc now order)); [|discriminate].
      injection Hrun as _ <-.
      exists (fresh (dom (coll "order" db))). split; [|split; [|split]].
      * apply not_elem_of_dom, is_fresh.
      * by rewrite coll_insert.
      * apply order_doc_total.
      * apply order_doc_items.
  - intros Hne. unfold exec, create_order. by rewrite Hne.
Qed.

(** C2. A request whose rounded computed total differs from its rounded
    [total] is answered with 400 "Total mismatch", and the store is left
    exactly as it was: no stock is changed, no order inserted. *)
Theorem create_order_total_mismatch now order db :
  float_ne (round2 (calc_total order)) (round2 (total order)) = true →
  create_order now order db = (Raise (HTTPException 400 "Total mismatch"), db).
Proof. intros Hne. unfold create_order. by rewrite Hne. Qed.

(** C5, as amended. A request that passes the total check and whose
    quantities all fit in a signed 64-bit integer adds exactly one
    document to the order store, with status "pending" and [created_at]
    equal to [updated_at]; the record returned is that document with its
    generated identifier as the string [id] (and no [_id]) and both
    timestamps in ISO format. *)
Theorem create_order_persists_pending now order db :
  float_ne (round2 (calc_total order)) (round2 (total order)) = false →
  Forall (λ i, int64 (quantity i) = true) (items order) →
  ∃ k r db',
    create_order now order db = (Return (Some r), db') ∧
    coll "order" db !! k = None ∧
    coll "order" db' = <[k := order_doc now order]> (coll "order" db) ∧
    order_doc now order !! "status" = Some (VStr "pending") ∧
    order_doc now order !! "created_at" = Some (VDatetime now) ∧
    order_doc now order !! "updated_at" = Some (VDatetime now) ∧
    r !! "id" = Some (VStr (oid_str k)) ∧
    r !! "_id" = None ∧
    r !! "status" = Some (VStr "pending") ∧
    r !! "created_at" = Some (VStr (isoformat now)) ∧
    r !! "updated_at" = Some (VStr (isoformat now)) ∧
    (∀ f : string, f ≠ "id" → f ≠ "_id" →
       r !! f = iso_value <$> order_doc now order !! f).
Proof.
  intros Hok Hfit. eexists _, _, _.
  split; [by apply create_order_accepted, order_doc_encodable|].
  split; [apply not_elem_of_dom, is_fresh|].
  split; [by rewrite coll_insert|].
  split; [apply order_doc_status|].
  split; [apply order_doc_created_at|].
  split; [apply order_doc_updated_at|].
  split; [apply rendered_id|].
  split; [apply rendered_no_id|].
  split; [by rewrite rendered_field, order_doc_status|].
  split; [by rewrite rendered_field, order_doc_created_at|].
  split; [by rewrite rendered_field, order_doc_updated_at|].
  intros f H1 H2. by apply rendered_field.
Qed.

(** C6, as amended. Two successive calls with the same request body,
    one that passes the total check and whose quantities all fit in a
    signed 64-bit integer, both succeed; each inserts a document of its
    own, and the two records returned carry different identifiers. *)
Theorem create_order_not_idempotent now1 now2 order db :
  float_ne (round2 (calc_total order)) (round2 (total order)) = false →
  Forall (λ i, int64 (quantity i) = true) (items order) →
  ∃ k1 k2 r1 r2 db1 db2,
    create_order now1 order db = (Return (Some r1), db1) ∧
    create_order now2 order db1 = (Return (Some r2), db2) ∧
    r1 !! "id" = Some (VStr (oid_str k1)) ∧
    r2 !! "id" = Some (VStr (oid_str k2)) ∧
    k1 ≠ k2 ∧ r1 !! "id" ≠ r2 !! "id" ∧
    coll "order" db !! k1 = None ∧ coll "order" db !! k2 = None ∧
    coll "order" db2 =
      <[k2 := order_doc now2 order]> (<[k1 := order_doc now1 order]> (coll "order" db)).
Proof.
  intros Hok Hfit.
  pose proof (create_order_accepted now1 order db Hok
                (order_doc_encodable now1 order Hfit)) as H1. simpl in H1.
  set (k1 := fresh (dom (coll "order" db))) in *.
  set (db1 := <["order" := <[k1 := order_doc now1 order]> (coll "order" db)]>
                (exec (for_each (items order) (decrement_stock now1)) db)) in *.
  pose proof (create_order_accepted now2 order db1 Hok
                (order_doc_encodable now2 order Hfit)) as H2. simpl in H2.
  assert (Hc1 : coll "order" db1 = <[k1 := order_doc now1 order]> (coll "order" db))
    by apply coll_insert.
  rewrite Hc1 in H2.
  set (k2 := fresh (dom (<[k1 := order_doc now1 order]> (coll "order" db)))) in *.
  assert (Hk1 : k1 ∉ dom (coll "order" db)) by apply is_fresh.
  assert (Hk2 : k2 ∉ dom (<[k1 := order_doc now1 order]> (coll "order" db)))
    by apply is_fresh.
  rewrite dom_insert_L in Hk2.
  assert (Hne : k1 ≠ k2) by set_solver.
  eexists k1, k2, _, _, _, _.
  split; [exact H1|]. split; [exact H2|].
  split; [apply rendered_id|]. split; [apply rendered_id|].
  split; [done|].
  split.
  { rewrite !rendered_id. intros [= Heq]. by apply oid_str_inj in Heq. }
  split; [by apply not_elem_of_dom|].
  split; [apply not_elem_of_dom; set_solver|].
  by rewrite coll_insert.
Qed.

End Placement.

(** ** Stock adjustment *)

Section Stock.
Context `{PyRuntime}.
Implicit Types (db : DB) (d : dict) (k : oid) (now : datetime)
  (item : OrderItem) (order : OrderIn).

(** The three ways an item's update finds nothing to change. *)
Lemma malformed_id_not_applied item db :
  ObjectId (product_id item) = None → decrement_applies item db = false.
Proof. intros Hk. by rewrite decrement_applies_spec, Hk. Qed.

Lemma missing_product_not_applied item db k :
  ObjectId (product_id item) = Some k → coll "product" db !! k = None →
  decrement_applies item db = false.
Proof. intros Hk Hd. by rewrite decrement_applies_spec, Hk, Hd. Qed.

Lemma insufficient_stock_not_applied item db k d (m : Z) :
  ObjectId (product_id item) = Some k → coll "product" db !! k = Some d →
  d !! "stock_qty" = Some (VInt m) → m < quantity item →
  decrement_applies item db = false.
Proof.
  intros Hk Hd Hs Hlt. rewrite decrement_applies_spec, Hk, Hd, Hs. simpl.
  by apply Z.leb_gt.
Qed.

Lemma create_order_products now order db :
  float_ne (round2 (calc_total order)) (round2 (total order)) = false →
  coll "product" (exec (create_order now order) db) =
    coll "product" (exec (for_each (items order) (decrement_stock now)) db).
Proof.
  intros Hok. unfold exec at 1.
  rewrite (create_order_checked _ _ _ Hok). simpl.
  destruct (dict_encodable (order_doc now order)); [|done].
  simpl. by rewrite coll_insert_ne.
Qed.

(** C3. For an item of an accepted request whose product exists with at
    least the requested quantity in stock when the item is reached, the
    update of that item takes exactly the quantity off the product's
    [stock_qty] and sets its [updated_at] to the current time; the other
    fields of the product and all other products are as before, and what
    the call leaves in the product store is what the remaining items make
    of that state. *)
Theorem decrement_applied_once now order db (pre post : list OrderItem) item k d (m : Z) :
  float_ne (round2 (calc_total order)) (round2 (total order)) = false →
  items order = (pre ++ item :: post)%list →
  ObjectId (product_id item) = Some k →
  let db0 := exec (for_each pre (decrement_stock now)) db in
  coll "product" db0 !! k = Some d →
  d !! "stock_qty" = Some (VInt m) →
  quantity item ≤ m →
  let db1 := exec (decrement_stock now item) db0 in
  decrement_applies item db0 = true ∧
  ∃ d', coll "product" db1 = <[k := d']> (coll "product" db0) ∧
        d' !! "stock_qty" = Some (VInt (m - quantity item)) ∧
        d' !! "updated_at" = Some (VDatetime now) ∧
        (∀ f : string, f ≠ "stock_qty" → f ≠ "updated_at" → d' !! f = d !! f) ∧
        (∀ name : string, name ≠ "product" → db1 !! name = db0 !! name) ∧
        coll "product" (exec (create_order now order) db) =
          coll "product" (exec (for_each post (decrement_stock now)) db1).
Proof.
  intros Hok Hitems Hk db0 Hd Hs Hle db1.
  split.
  { rewrite decrement_applies_spec, Hk, Hd, Hs. simpl. by apply Z.leb_le. }
  eexists. split.
  { unfold db1. rewrite (decrement_stock_hit now item db0 k d m) by done.
    by rewrite coll_insert. }
  split; [by rewrite lookup_insert_ne, lookup_insert_eq|].
  split; [by rewrite lookup_insert_eq|].
  split; [intros f H1 H2; by rewrite !lookup_insert_ne|].
  split; [intros name Hne; by apply decrement_stock_frame|].
  rewrite create_order_products by done.
  by rewrite Hitems, stock_loop_app, stock_loop_cons.
Qed.



End Stock.

(** ** Users, products and the order list *)

Section Accounts.
Context `{PyRuntime}.
Implicit Types (db : DB) (c : collection) (d u : dict) (k : oid).

(** The filter on [email] matches exactly the documents whose [email] is
    that string. *)
Lemma matches_email (e : string) (kd : oid * dict) :
  matches [("email", CEqStr e)] (with_id kd) = true ↔ kd.2 !! "email" = Some (VStr e).
Proof.
  unfold matches. simpl. rewrite with_id_lookup_ne by done.
  rewrite andb_true_r.
  destruct (kd.2 !! "email") as [[]|]; simpl; try (split; [discriminate|congruence]).
  split; [intros ->%String.eqb_eq; done | intros [= ->]; apply String.eqb_refl].
Qed.

(** C7. [login] compares the stored password with the submitted one as
    plain strings.  It succeeds only if a user document with the given
    email exists whose stored [password] is that very string and whose
    [approved] is truthy; when no document has the email, or the password
    of the document found differs, it fails with 401 "Invalid
    credentials" and leaves the store alone. *)
Theorem login_plaintext_check (req : LoginReq) db :
  (∀ r db', login req db = (Return r, db') →
     ∃ k u, coll "user" db !! k = Some u ∧
            u !! "email" = Some (VStr (email req)) ∧
            u !! "password" = Some (VStr (password req)) ∧
            truthy (get u "approved") = true)
  ∧ ((∀ k u, coll "user" db !! k = Some u → u !! "email" ≠ Some (VStr (email req))) →
     login req db = (Raise (HTTPException 401 "Invalid credentials"), db))
  ∧ (∀ k u, first_match [("email", CEqStr (email req))] (coll "user" db) = Some (k, u) →
            u !! "password" ≠ Some (VStr (password req)) →
            login req db = (Raise (HTTPException 401 "Invalid credentials"), db)).
Proof.
  split; [|split].
  - intros r db' Hrun. unfold login, mbind, M_bind, find_one in Hrun.
    destruct (first_match _ _) as [[k u]|] eqn:Hf; simpl in Hrun; [|discriminate].
    destruct (first_match_Some _ _ _ Hf) as [Hk Hm]. simpl in Hk.
    apply matches_email in Hm. simpl in Hm.
    destruct (dict_empty _ || _) eqn:Hbad; [discriminate|].
    apply orb_false_elim in Hbad as [_ Hpw].
    destruct (negb (truthy _)) eqn:Happ; [discriminate|].
    apply negb_false_iff in Happ.
    unfold get in Hpw, Happ. rewrite with_id_lookup_ne in Hpw, Happ by done. simpl in *.
    exists k, u. split; [done|]. split; [done|]. split; [|done].
    destruct (u !! "password") as [[]|]; simpl in Hpw; try discriminate.
    apply negb_false_iff, String.eqb_eq in Hpw. by subst.
  - intros Hnone. unfold login, mbind, M_bind, find_one.
    destruct (first_match _ _) as [[k u]|] eqn:Hf; [|done].
    destruct (first_match_Some _ _ _ Hf) as [Hk Hm]. simpl in Hk.
    apply matches_email in Hm. simpl in Hm. by destruct (Hnone k u Hk).
  - intros k u Hf Hpw. unfold login, mbind, M_bind, find_one. rewrite Hf. simpl.
    assert (Hne : py_ne_str (get (with_id (k, u)) "password") (password req) = true).
    { unfold get. rewrite with_id_lookup_ne by done. simpl.
      destruct (u !! "password") as [[]|]; simpl; try done.
      apply negb_true_iff, String.eqb_neq. congruence. }
    by rewrite Hne, orb_true_r.
Qed.

(** With the admin header, [delete_product] either deletes the product
    stored under the id or answers 400. *)
Lemma delete_product_admin (product_id : string) db :
  delete_product product_id (Some "true") db =
    match ObjectId product_id with
    | Some k =>
        match coll "product" db !! k with
        | Some _ => (Return {["status" := VStr "ok"]},
                     <["product" := delete k (coll "product" db)]> db)
        | None => (Raise (HTTPException 400 "Invalid product id"), db)
        end
    | None => (Raise (HTTPException 400 "Invalid product id"), db)
    end.
Proof.
  unfold delete_product, require_admin, delete_product_try, try_except,
    mbind, M_bind, to_ObjectId, delete_one, raise, mret, M_ret. simpl.
  destruct (ObjectId product_id) as [k|]; [|done].
  rewrite first_match_by_id. by destruct (coll "product" db !! k).
Qed.

(** C9. [delete_product] never answers 404: for a well-formed id that no
    product has, the [try] block raises 404 "Product not found", the
    handler around it catches that and the caller gets 400 "Invalid
    product id"; past the admin check every failure is that 400. *)
Theorem delete_product_never_404 (product_id : string) (x_admin : option string) db :
  (∀ detail db',
     delete_product product_id x_admin db ≠ (Raise (HTTPException 404 detail), db'))
  ∧ (∀ k, ObjectId product_id = Some k → coll "product" db !! k = None →
       delete_product_try product_id db =
         (Raise (HTTPException 404 "Product not found"), db) ∧
       delete_product product_id (Some "true") db =
         (Raise (HTTPException 400 "Invalid product id"), db))
  ∧ (∀ e db', delete_product product_id (Some "true") db = (Raise e, db') →
       e = HTTPException 400 "Invalid product id").
Proof.
  split; [|split].
  - intros detail db'.
    destruct (decide (x_admin = Some "true")) as [->|Hna].
    + rewrite delete_product_admin.
      destruct (ObjectId product_id) as [k|]; [|discriminate].
      destruct (coll "product" db !! k); discriminate.
    + unfold delete_product, require_admin, mbind, M_bind, raise.
      rewrite bool_decide_eq_false_2 by done. simpl. discriminate.
  - intros k Hk Hd. split.
    + unfold delete_product_try, mbind, M_bind, to_ObjectId, delete_one, raise.
      rewrite Hk, first_match_by_id, Hd. done.
    + by rewrite delete_product_admin, Hk, Hd.
  - intros e db'. rewrite delete_product_admin.
    destruct (ObjectId product_id) as [k|]; [|congruence].
    destruct (coll "product" db !! k); [discriminate|congruence].
Qed.

(** An empty filter matches every document. *)
Lemma find_matches_all c : find_matches [] c = map_to_list c.
Proof.
  unfold find_matches. induction (map_to_list c) as [|kd l IH]; [done|].
  rewrite filter_cons_True by done. by rewrite IH.
Qed.

(** C10. The filter of [list_orders] is [user_email] only when an email
    is given and the admin header is not "true"; without an email the
    filter is empty whatever the header, and every order of the store is
    returned. *)
Theorem list_orders_filter (email x_admin : option string) db :
  list_orders_query None x_admin = []
  ∧ list_orders None x_admin db =
      (Return (oid_to_str_dict <$> (with_id <$> map_to_list (coll "order" db))), db)
  ∧ (∀ k d, coll "order" db !! k = Some d →
       ∃ l, list_orders None x_admin db = (Return l, db) ∧
            oid_to_str_dict (with_id (k, d)) ∈ l)
  ∧ (list_orders_query email x_admin ≠ [] →
       ∃ e, email = Some e ∧ x_admin ≠ Some "true" ∧
            list_orders_query email x_admin = [("user_email", CEqStr e)])
  ∧ list_orders email x_admin db =
      (Return (oid_to_str_dict <$>
                 (with_id <$> find_matches (list_orders_query email x_admin)
                                (coll "order" db))), db).
Proof.
  assert (Hall : list_orders None x_admin db =
      (Return (oid_to_str_dict <$> (with_id <$> map_to_list (coll "order" db))), db)).
  { unfold list_orders, mbind, M_bind, find. simpl. by rewrite find_matches_all. }
  split; [done|]. split; [done|]. split; [|split; [|done]].
  - intros k d Hd. eexists. split; [exact Hall|].
    apply list_elem_of_fmap_2. apply (list_elem_of_fmap_2 with_id _ (k, d)).
    by apply elem_of_map_to_list.
  - intros Hq. unfold list_orders_query in *.
    destruct email as [e|]; [|done].
    destruct (negb (String.eqb e "")) eqn:He; simpl in *; [|done].
    destruct (bool_decide (x_admin = Some "true")) eqn:Ha; simpl in *; [done|].
    exists e. split; [done|]. split; [|done].
    by apply bool_decide_eq_false in Ha.
Qed.

End Accounts.

(** ** Concurrent submissions *)

Section Concurrency.
Context `{PyRuntime}.
Implicit Types (db : DB) (d : dict) (k : oid) (now : datetime)
  (item : OrderItem) (order : OrderIn).

(** The operations of a call, run one after the other, leave the store
    that the call leaves. *)
Lemma create_order_ops_exec now order db :
  exec (for_each (create_order_ops now order) run_op) db = exec (create_order now order) db.
Proof.
  unfold create_order_ops.
  destruct (float_ne (round2 (calc_total order)) (round2 (total order))) eqn:Hne.
  - unfold exec, create_order. by rewrite Hne.
  - assert (Hgen : ∀ (l : list OrderItem) db0,
      exec (for_each ((OpDecrement now <$> l) ++ [OpInsert (order_doc now order)]) run_op) db0 =
      exec (run_op (OpInsert (order_doc now order)))
        (exec (for_each l (decrement_stock now)) db0)).
    { induction l as [|item l IH]; intros db0.
      - unfold exec. simpl. unfold mbind, M_bind.
        by destruct (insert_one_encoded _ _ db0) as [[] ?].
      - rewrite stock_loop_cons, <- IH.
        unfold exec at 1. simpl. unfold mbind, M_bind.
        by rewrite decrement_stock_returns. }
    rewrite Hgen. unfold exec at 1 3.
    rewrite (create_order_checked _ _ _ Hne). simpl.
    unfold mbind, M_bind, insert_one_encoded.
    destruct (dict_encodable (order_doc now order)); [|done].
    unfold insert_one. simpl. unfold coll at 1 2. by rewrite stock_loop_frame.
Qed.

Lemma run_insert_products (doc : dict) db :
  coll "product" (exec (run_op (OpInsert doc)) db) = coll "product" db.
Proof.
  unfold exec. simpl. unfold mbind, M_bind, insert_one_encoded.
  destruct (dict_encodable doc); [|done].
  unfold insert_one. simpl. by rewrite coll_insert_ne.
Qed.

Lemma decrement_applies_products item db db' :
  coll "product" db' = coll "product" db →
  decrement_applies item db' = decrement_applies item db.
Proof. intros Hc. unfold decrement_applies. by rewrite Hc. Qed.

(** What one conditional decrement does to a product with [m] in stock. *)
Lemma decrement_stock_step now item db k d (m : Z) :
  ObjectId (product_id item) = Some k →
  coll "product" db !! k = Some d →
  d !! "stock_qty" = Some (VInt m) →
  decrement_applies item db = (quantity item <=? m) ∧
  ∃ d', coll "product" (exec (decrement_stock now item) db) !! k = Some d' ∧
        d' !! "stock_qty" =
          Some (VInt (if quantity item <=? m then m - quantity item else m)).
Proof.
  intros Hk Hd Hs.
  assert (Ha : decrement_applies item db = (quantity item <=? m)).
  { by rewrite decrement_applies_spec, Hk, Hd, Hs. }
  split; [done|].
  destruct (Z.leb_spec (quantity item) m) as [Hle|Hlt].
  - rewrite (decrement_stock_hit now item db k d m) by done.
    eexists. rewrite coll_insert, lookup_insert_eq. split; [done|].
    by rewrite lookup_insert_ne, lookup_insert_eq.
  - rewrite decrement_stock_miss by done. by exists d.
Qed.

(** Two conditional decrements on one product whose quantities together
    exceed its stock: whichever runs first, and whatever else is inserted
    in between, at most one of them applies. *)
Lemma second_decrement_refused now item1 item2 db db2 k d (m : Z) :
  ObjectId (product_id item1) = Some k →
  ObjectId (product_id item2) = Some k →
  coll "product" db !! k = Some d →
  d !! "stock_qty" = Some (VInt m) →
  m < quantity item1 + quantity item2 →
  coll "product" db2 = coll "product" (exec (decrement_stock now item1) db) →
  ((if decrement_applies item1 db then 1 else 0) +
   (if decrement_applies item2 db2 then 1 else 0) ≤ 1)%nat.
Proof.
  intros Hk1 Hk2 Hd Hs Hlt Hc.
  destruct (decrement_stock_step now item1 db k d m Hk1 Hd Hs) as [Ha1 [d' [Hd' Hs']]].
  rewrite (decrement_applies_products _ _ _ Hc), Ha1.
  destruct (decrement_stock_step now item2 _ k d' _ Hk2 Hd' Hs') as [Ha2 _].
  rewrite Ha2.
  destruct (Z.leb_spec (quantity item1) m); [|destruct (_ <=? _); lia].
  destruct (Z.leb_spec (quantity item2) (m - quantity item1)); lia.
Qed.

(** C8. Two concurrent submissions, each with one item for the same
    product, whose quantities together exceed the product's stock (as two
    requests for half of an odd stock, rounded up, do): in every
    interleaving of their store operations at most one of the two
    conditional decrements applies.  Each decrement-if-sufficient is one
    operation of the store, so no interleaving separates its check from
    its write. *)
Theorem concurrent_decrements_at_most_one
    now1 now2 order1 order2 item1 item2 k d (m : Z) db (sched : list store_op) :
  items order1 = [item1] →
  items order2 = [item2] →
  ObjectId (product_id item1) = Some k →
  ObjectId (product_id item2) = Some k →
  coll "product" db !! k = Some d →
  d !! "stock_qty" = Some (VInt m) →
  m < quantity item1 + quantity item2 →
  interleave (create_order_ops now1 order1) (create_order_ops now2 order2) sched →
  (applied sched db ≤ 1)%nat.
Proof.
  intros Hi1 Hi2 Hk1 Hk2 Hd Hs Hlt Hsched.
  assert (H12 := λ db2, second_decrement_refused now1 item1 item2 db db2 k d m
                          Hk1 Hk2 Hd Hs Hlt).
  assert (H21 := λ db2, second_decrement_refused now2 item2 item1 db db2 k d m
                          Hk2 Hk1 Hd Hs ltac:(lia)).
  unfold create_order_ops in Hsched. rewrite Hi1, Hi2 in Hsched. simpl in Hsched.
  destruct (float_ne (round2 (calc_total order1)) _);
    destruct (float_ne (round2 (calc_total order2)) _);
    repeat match goal with
           | Hi : interleave _ _ _ |- _ => inversion Hi; subst; clear Hi
           end;
    cbn [applied].
  all: try match goal with
           | Hpair : ∀ db2, _ → (_ + (if decrement_applies ?i db2 then _ else _) ≤ 1)%nat
             |- context [decrement_applies ?i (exec ?a ?b)] =>
               pose proof (Hpair (exec a b)
                 ltac:(first [reflexivity | apply run_insert_products]))
           end.
  all: try lia.
  all: match goal with
       | |- context [decrement_applies ?i ?s] => destruct (decrement_applies i s); lia
       end.
Qed.

End Concurrency.

(** ** The theorems at the sample data *)

Example accepted_total :
  float_ne (round2 (calc_total Sample.order)) (round2 (total Sample.order)) = false.
Proof. reflexivity. Qed.

Example rejected_total :
  (create_order Sample.now Sample.rejected_order Sample.db).1 =
    Raise (HTTPException 400 "Total mismatch").
Proof. reflexivity. Qed.

Example stock_after_order :
  coll "product" (exec (create_order Sample.now Sample.order) Sample.db)
    !! Sample.laptop_id ≫= (.!! "stock_qty") = Some (VInt 9).
Proof. reflexivity. Qed.

Example stock_after_big_order :
  coll "product" (exec (create_order Sample.now Sample.big_order) Sample.db)
    !! Sample.laptop_id ≫= (.!! "stock_qty") = Some (VInt 11).
Proof. reflexivity. Qed.

Lemma create_order_total_invariant_witness :
  create_order Sample.now Sample.order Sample.db =
    (Return (Some (oid_to_str_dict (with_id (0%N, order_doc Sample.now Sample.order)))),
     exec (create_order Sample.now Sample.order) Sample.db) ∧
  float_ne (round2 (calc_total Sample.order)) (round2 (total Sample.order)) = false.
Proof.
  assert (Hrun : create_order Sample.now Sample.order Sample.db =
    (Return (Some (oid_to_str_dict (with_id (0%N, order_doc Sample.now Sample.order)))),
     exec (create_order Sample.now Sample.order) Sample.db))
    by reflexivity.
  split; [exact Hrun|].
  exact (proj1 (proj1 (create_order_total_invariant Sample.now Sample.order Sample.db)
                  _ _ Hrun)).
Defined.

Lemma create_order_total_mismatch_witness :
  float_ne (round2 (calc_total Sample.short_order)) (round2 (total Sample.short_order)) = true ∧
  create_order Sample.now Sample.short_order Sample.db =
    (Raise (HTTPException 400 "Total mismatch"), Sample.db).
Proof.
  split; [reflexivity|]. apply create_order_total_mismatch. reflexivity.
Defined.

Lemma decrement_applied_once_witness :
  decrement_applies Sample.two_laptops Sample.db = true ∧
  ∃ d', coll "product" (exec (decrement_stock Sample.now Sample.two_laptops) Sample.db) =
          <[Sample.laptop_id := d']> (coll "product" Sample.db) ∧
        d' !! "stock_qty" = Some (VInt (11 - 2)) ∧
        d' !! "updated_at" = Some (VDatetime Sample.now).
Proof.
  destruct (decrement_applied_once Sample.now Sample.order Sample.db [] []
              Sample.two_laptops Sample.laptop_id Sample.laptop 11)
    as [Ha [d' (Hc & Hs & Hu & _)]].
  - reflexivity.
  - reflexivity.
  - reflexivity.
  - reflexivity.
  - reflexivity.
  - simpl. lia.
  - split; [exact Ha|]. exists d'. exact (conj Hc (conj Hs Hu)).
Defined.

Lemma sample_order_fits :
  Forall (λ i, int64 (quantity i) = true) (items Sample.order).
Proof. repeat constructor. Qed.


Lemma huge_order_raises (now : datetime) :
  create_order now Sample.huge_order Sample.db = (Raise OverflowError, Sample.db).
Proof. reflexivity. Qed.



Lemma create_order_persists_pending_witness :
  ∃ k r db',
    create_order Sample.now Sample.order Sample.db = (Return (Some r), db') ∧
    coll "order" db' = <[k := order_doc Sample.now Sample.order]> (coll "order" Sample.db) ∧
    r !! "id" = Some (VStr (oid_str k)) ∧
    r !! "status" = Some (VStr "pending") ∧
    r !! "created_at" = r !! "updated_at".
Proof.
  destruct (create_order_persists_pending Sample.now Sample.order Sample.db
              eq_refl sample_order_fits)
    as (k & r & db' & Hrun & _ & Hc & _ & _ & _ & Hid & _ & Hst & Hca & Hua & _).
  exists k, r, db'. rewrite Hca, Hua.
  exact (conj Hrun (conj Hc (conj Hid (conj Hst eq_refl)))).
Defined.

(** C5 as first stated fails on a request that passes the total check
    with a quantity of 2^63: the insertion raises and nothing is
    persisted or returned. *)
Lemma create_order_persists_pending_counterexample :
  float_ne (round2 (calc_total Sample.huge_order)) (round2 (total Sample.huge_order)) = false ∧
  create_order Sample.now Sample.huge_order Sample.db = (Raise OverflowError, Sample.db) ∧
  ¬ ∃ r db', create_order Sample.now Sample.huge_order Sample.db = (Return r, db').
Proof.
  split; [reflexivity|]. split; [apply huge_order_raises|].
  intros (r & db' & Hr). rewrite huge_order_raises in Hr. discriminate.
Qed.

Lemma create_order_not_idempotent_witness :
  ∃ r1 r2 db1 db2,
    create_order Sample.now Sample.order Sample.db = (Return (Some r1), db1) ∧
    create_order Sample.later Sample.order db1 = (Return (Some r2), db2) ∧
    r1 !! "id" ≠ r2 !! "id".
Proof.
  destruct (create_order_not_idempotent Sample.now Sample.later Sample.order Sample.db
              eq_refl sample_order_fits)
    as (k1 & k2 & r1 & r2 & db1 & db2 & H1 & H2 & _ & _ & _ & Hne & _).
  exists r1, r2, db1, db2. exact (conj H1 (conj H2 Hne)).
Defined.

(** C6 as first stated fails on the same request: neither of two
    successive calls inserts a document, the store stays as it was. *)
Lemma create_order_not_idempotent_counterexample :
  float_ne (round2 (calc_total Sample.huge_order)) (round2 (total Sample.huge_order)) = false ∧
  create_order Sample.now Sample.huge_order Sample.db = (Raise OverflowError, Sample.db) ∧
  create_order Sample.later Sample.huge_order Sample.db = (Raise OverflowError, Sample.db).
Proof.
  split; [reflexivity|]. split; apply huge_order_raises.
Qed.

Lemma login_plaintext_check_witness :
  ∃ k u, coll "user" Sample.db !! k = Some u ∧
         u !! "password" = Some (VStr "s3cret").
Proof.
  destruct (proj1 (login_plaintext_check
                     {| email := "ann@example.com"; password := "s3cret" |} Sample.db)
              (list_to_map [("email", VStr "ann@example.com"); ("name", VStr "Ann");
                            ("role", VStr "customer"); ("approved", VBool true)])
              Sample.db)
    as (k & u & Hk & _ & Hp & _).
  - reflexivity.
  - exists k, u. exact (conj Hk Hp).
Defined.

Lemma delete_product_never_404_witness :
  delete_product "65a1b2c3d4e5f60718293a4c" (Some "true") Sample.db =
    (Raise (HTTPException 400 "Invalid product id"), Sample.db).
Proof.
  apply (proj1 (proj2 (delete_product_never_404 "65a1b2c3d4e5f60718293a4c"
                         (Some "true") Sample.db)) 0x65a1b2c3d4e5f60718293a4c%N).
  - reflexivity.
  - reflexivity.
Defined.

Lemma list_orders_filter_witness :
  list_orders_query (Some "ann@example.com") None ≠ [] ∧
  list_orders_query (Some "ann@example.com") None = [("user_email", CEqStr "ann@example.com")].
Proof.
  assert (Hq : list_orders_query (Some "ann@example.com") None ≠ []) by discriminate.
  split; [exact Hq|].
  destruct (proj1 (proj2 (proj2 (proj2
              (list_orders_filter (H := Fixed3.runtime) (Some "ann@example.com") None Sample.db)))) Hq)
    as (e & He & _ & ->).
  injection He as <-. reflexivity.
Defined.

Lemma concurrent_decrements_at_most_one_witness :
  let sched := [OpDecrement Sample.now Sample.six_laptops;
                OpDecrement Sample.later Sample.six_laptops;
                OpInsert (order_doc Sample.later Sample.bob_half);
                OpInsert (order_doc Sample.now Sample.ann_half)] in
  interleave (create_order_ops Sample.now Sample.ann_half)
             (create_order_ops Sample.later Sample.bob_half) sched ∧
  (applied sched Sample.db ≤ 1)%nat.
Proof.
  assert (Hs : interleave (create_order_ops Sample.now Sample.ann_half)
                 (create_order_ops Sample.later Sample.bob_half)
                 [OpDecrement Sample.now Sample.six_laptops;
                  OpDecrement Sample.later Sample.six_laptops;
                  OpInsert (order_doc Sample.later Sample.bob_half);
                  OpInsert (order_doc Sample.now Sample.ann_half)]).
  { apply interleave_l, interleave_r, interleave_r, interleave_l, interleave_nil. }
  split; [exact Hs|].
  apply (concurrent_decrements_at_most_one Sample.now Sample.later
           Sample.ann_half Sample.bob_half Sample.six_laptops Sample.six_laptops
           Sample.laptop_id Sample.laptop 11 Sample.db).
  - reflexivity.
  - reflexivity.
  - reflexivity.
  - reflexivity.
  - reflexivity.
  - reflexivity.
  - simpl. lia.
  - exact Hs.
Defined.

(** ** ObjectId parsing *)

Lemma hex_digit_char (x : N) : (x < 16)%N → hex_digit (hex_char x) = Some x.
Proof.
  intros Hx.
  assert (Hcases : (x = 0 ∨ x = 1 ∨ x = 2 ∨ x = 3 ∨ x = 4 ∨ x = 5 ∨ x = 6 ∨ x = 7 ∨
                    x = 8 ∨ x = 9 ∨ x = 10 ∨ x = 11 ∨ x = 12 ∨ x = 13 ∨ x = 14 ∨
                    x = 15)%N) by lia.
  repeat destruct Hcases as [->|Hcases]; try reflexivity. by subst.
Qed.

Lemma hex_digit_bound (c : ascii) (x : N) : hex_digit c = Some x → (x < 16)%N.
Proof.
  unfold hex_digit. intros Hx.
  repeat match type of Hx with
         | (if ?b then _ else _) = _ =>
             let Hb := fresh "Hb" in
             destruct b eqn:Hb;
               [apply andb_true_iff in Hb as [?%N.leb_le ?%N.leb_le];
                injection Hx as <-; lia|]
         end.
  discriminate.
Qed.

(** Parsing the [w] digits of [n] after [acc] appends them to [acc]. *)
Lemma parse_hex_be (w : nat) (n acc : N) :
  parse_hex (hex_be w n) acc = Some (acc * 16 ^ N.of_nat w + n mod 16 ^ N.of_nat w)%N.
Proof.
  revert acc. induction w as [|w IH]; intros acc.
  - simpl. rewrite N.mod_1_r. f_equal. lia.
  - simpl hex_be. simpl parse_hex.
    rewrite hex_digit_char by (by apply N.mod_lt).
    rewrite IH. f_equal.
    rewrite Nat2N.inj_succ, N.pow_succ_r', (N.mul_comm 16 (16 ^ N.of_nat w)).
    rewrite N.Div0.mod_mul_r. lia.
Qed.

Lemma parse_hex_bound (s : string) (acc r : N) :
  parse_hex s acc = Some r →
  (acc * 16 ^ N.of_nat (String.length s) ≤ r < (acc + 1) * 16 ^ N.of_nat (String.length s))%N.
Proof.
  revert acc. induction s as [|c s IH]; intros acc Hp.
  - simpl in *. injection Hp as <-. lia.
  - simpl in Hp. destruct (hex_digit c) as [x|] eqn:Hc; [|discriminate].
    apply hex_digit_bound in Hc. apply IH in Hp.
    simpl String.length. rewrite Nat2N.inj_succ, N.pow_succ_r'. nia.
Qed.

Lemma oid_width_24 (o : oid) : (o < 2 ^ 96)%N → oid_width o = 24%nat.
Proof.
  intros Ho. unfold oid_width.
  destruct (decide (o = 0%N)) as [->|Hnz]; [done|].
  assert (N.log2 o < 96)%N by (apply N.log2_lt_pow2; lia).
  assert (N.log2 o / 4 < 24)%N by (apply N.Div0.div_lt_upper_bound; lia).
  lia.
Qed.

Lemma ObjectId_oid_str_aux (o : oid) : (o < 2 ^ 96)%N → ObjectId (oid_str o) = Some o.
Proof.
  intros Ho. unfold oid_str, ObjectId. rewrite (oid_width_24 o Ho).
  rewrite hex_be_length, decide_True by done. rewrite parse_hex_be.
  f_equal. rewrite N.mul_0_l, N.add_0_l.
  apply N.mod_small. by replace (16 ^ N.of_nat 24)%N with (2 ^ 96)%N.
Qed.

(** X1. [str] and [ObjectId] are inverse on twelve-byte identifiers: the
    rendering has 24 characters and parses back to the identifier. *)
Theorem ObjectId_oid_str (o : oid) :
  (o < 2 ^ 96)%N →
  String.length (oid_str o) = 24%nat ∧ ObjectId (oid_str o) = Some o.
Proof.
  intros Ho. split; [|by apply ObjectId_oid_str_aux].
  unfold oid_str. by rewrite (oid_width_24 o Ho), hex_be_length.
Qed.

Lemma ObjectId_oid_str_witness :
  (0x65a1b2c3d4e5f60718293a4b < 2 ^ 96)%N ∧
  ObjectId (oid_str 0x65a1b2c3d4e5f60718293a4b) = Some 0x65a1b2c3d4e5f60718293a4b%N.
Proof.
  assert (Hb : (0x65a1b2c3d4e5f60718293a4b < 2 ^ 96)%N) by reflexivity.
  exact (conj Hb (proj2 (ObjectId_oid_str _ Hb))).
Defined.

(** What [ObjectId] accepts is a string of exactly 24 characters, and the
    identifier it yields fits in twelve bytes, so that rendering and
    parsing it again gives the same identifier. *)
Lemma ObjectId_accepts (s : string) (o : oid) :
  ObjectId s = Some o →
  String.length s = 24%nat ∧ (o < 2 ^ 96)%N ∧ ObjectId (oid_str o) = Some o.
Proof.
  unfold ObjectId at 1. intros Hp. case_decide as Hlen; [|discriminate].
  apply parse_hex_bound in Hp. rewrite Hlen in Hp.
  assert (Ho : (o < 2 ^ 96)%N).
  { replace (2 ^ 96)%N with (16 ^ N.of_nat 24)%N by done. lia. }
  split; [done|]. split; [done|]. by apply ObjectId_oid_str_aux.
Qed.

Example ObjectId_upper_case :
  ObjectId "65A1B2C3D4E5F60718293A4B" = Some 0x65a1b2c3d4e5f60718293a4b%N.
Proof. reflexivity. Qed.

(** ** Rendering of documents *)

Section RenderingMore.
Context `{PyRuntime}.
Implicit Types (d : dict) (k : oid).

Lemma iso_value_idemp (v : value) : iso_value (iso_value v) = iso_value v.
Proof. by destruct v. Qed.

Lemma iso_value_not_datetime (v : value) (t : datetime) : iso_value v ≠ VDatetime t.
Proof. by destruct v. Qed.

Lemma dict_empty_fmap (f : value → value) d : dict_empty (f <$> d) = dict_empty d.
Proof. unfold dict_empty. by rewrite dom_fmap_L. Qed.

Lemma dict_empty_insert (f : string) (v : value) d : dict_empty (<[f := v]> d) = false.
Proof.
  unfold dict_empty. apply bool_decide_eq_false_2.
  rewrite dom_insert_L. set_solver.
Qed.

(** The cases of [oid_to_str] on a dictionary. *)
Lemma oid_to_str_dict_cases d :
  (dict_empty d = true ∧ oid_to_str_dict d = d) ∨
  (dict_empty d = false ∧
   ((d !! "_id" = None ∨ d !! "_id" = Some VNone) ∧ oid_to_str_dict d = iso_value <$> d ∨
    ∃ v, d !! "_id" = Some v ∧ v ≠ VNone ∧
         oid_to_str_dict d = iso_value <$> <["id" := VStr (py_str v)]> (delete "_id" d))).
Proof.
  unfold oid_to_str_dict. destruct (dict_empty d); [by left|]. right. split; [done|].
  destruct (d !! "_id") as [v|] eqn:Hid; [|left; auto].
  destruct v; try (right; eexists; split; [done|]; split; [discriminate|done]).
  left; auto.
Qed.

(** X3. Rendering is idempotent: a record that [oid_to_str] has produced
    is left as it is by a second pass. *)
Theorem oid_to_str_dict_idempotent d :
  oid_to_str_dict (oid_to_str_dict d) = oid_to_str_dict d.
Proof.
  destruct (oid_to_str_dict_cases d) as [[He ->]|[He [[Hid ->]|(v & Hid & Hv & ->)]]].
  - unfold oid_to_str_dict. by rewrite He.
  - unfold oid_to_str_dict. rewrite dict_empty_fmap, He, lookup_fmap.
    destruct Hid as [-> | ->]; simpl;
      rewrite <- map_fmap_compose; apply map_fmap_ext; intros; apply iso_value_idemp.
  - unfold oid_to_str_dict.
    rewrite dict_empty_fmap, dict_empty_insert, lookup_fmap.
    rewrite lookup_insert_ne by done. rewrite lookup_delete_eq. simpl.
    rewrite <- map_fmap_compose. apply map_fmap_ext. intros. apply iso_value_idemp.
Qed.

(** X4. A rendered record holds no datetime at its top level, and its
    [_id], if it has one at all, is [None]: an identifier is only ever
    exposed as the string [id]. *)
Theorem oid_to_str_dict_plain d :
  (∀ (f : string) (t : datetime), oid_to_str_dict d !! f ≠ Some (VDatetime t))
  ∧ (oid_to_str_dict d !! "_id" = None ∨ oid_to_str_dict d !! "_id" = Some VNone)
  ∧ (∀ v, d !! "_id" = Some v → v ≠ VNone →
          oid_to_str_dict d !! "id" = Some (VStr (py_str v))).
Proof.
  destruct (oid_to_str_dict_cases d) as [[He ->]|[He [[Hid ->]|(v & Hid & Hv & ->)]]].
  - assert (Hd : d = ∅).
    { apply bool_decide_eq_true in He. by apply dom_empty_inv_L. }
    subst d. split; [|split].
    + intros f t. by rewrite lookup_empty.
    + left. apply lookup_empty.
    + intros v Hv. by rewrite lookup_empty in Hv.
  - split; [|split].
    + intros f t. rewrite lookup_fmap. destruct (d !! f) as [v|]; simpl; [|done].
      intros [= Hv]. by apply iso_value_not_datetime in Hv.
    + rewrite lookup_fmap. destruct Hid as [-> | ->]; auto.
    + intros v Hv Hn. destruct Hid as [Hid|Hid]; congruence.
  - split; [|split].
    + intros f t. rewrite lookup_fmap.
      destruct (_ !! f) as [w|]; simpl; [|done].
      intros [= Hw]. by apply iso_value_not_datetime in Hw.
    + left. rewrite lookup_fmap, lookup_insert_ne by done. by rewrite lookup_delete_eq.
    + intros v' Hv' _. rewrite lookup_fmap, lookup_insert_eq. simpl. congruence.
Qed.

(** A field missing from a document is missing from its rendering. *)
Lemma oid_to_str_dict_lookup_None d (f : string) :
  f ≠ "id" → d !! f = None → oid_to_str_dict d !! f = None.
Proof.
  intros Hf Hd.
  destruct (oid_to_str_dict_cases d) as [[He ->]|[He [[Hid ->]|(v & Hid & Hv & ->)]]].
  - done.
  - by rewrite lookup_fmap, Hd.
  - rewrite lookup_fmap, lookup_insert_ne by done.
    destruct (decide (f = "_id")) as [->|Hne].
    + by rewrite lookup_delete_eq.
    + by rewrite lookup_delete_ne, Hd.
Qed.

End RenderingMore.

(** ** Registration, approval and login *)

Section UsersMore.
Context `{PyRuntime}.
Implicit Types (db : DB) (c : collection) (d u : dict) (k : oid) (q : query)
  (now : datetime) (user : UserRegister.t).

(** A filter that a single document of the collection satisfies finds
    that document. *)
Lemma first_match_unique q c k d :
  c !! k = Some d →
  matches q (with_id (k, d)) = true →
  (∀ k' d', c !! k' = Some d' → matches q (with_id (k', d')) = true → k' = k) →
  first_match q c = Some (k, d).
Proof.
  intros Hk Hm Huniq. destruct (first_match q c) as [[k' d']|] eqn:Hf.
  - destruct (first_match_Some _ _ _ Hf) as [Hk' Hm']. simpl in Hk'.
    pose proof (Huniq _ _ Hk' Hm') as ->. congruence.
  - pose proof (first_match_None _ _ _ _ Hf Hk). congruence.
Qed.

Lemma first_match_email_None (e : string) c :
  (∀ k u, c !! k = Some u → u !! "email" ≠ Some (VStr e)) →
  first_match [("email", CEqStr e)] c = None.
Proof.
  intros Hnone. destruct (first_match _ c) as [[k u]|] eqn:Hf; [|done].
  destruct (first_match_Some _ _ _ Hf) as [Hk Hm]. simpl in Hk.
  apply matches_email in Hm. by destruct (Hnone k u Hk).
Qed.

Lemma first_match_email_unique (e : string) c k u :
  c !! k = Some u → u !! "email" = Some (VStr e) →
  (∀ k' u', c !! k' = Some u' → u' !! "email" = Some (VStr e) → k' = k) →
  first_match [("email", CEqStr e)] c = Some (k, u).
Proof.
  intros Hk He Huniq. apply first_match_unique; [done| by apply matches_email |].
  intros k' u' Hk' Hm'. apply matches_email in Hm'. by eapply Huniq.
Qed.

Lemma with_id_not_empty (kd : oid * dict) : dict_empty (with_id kd) = false.
Proof. apply dict_empty_insert. Qed.

Ltac lookup_literal :=
  simpl; repeat (rewrite lookup_insert_ne by done); rewrite ?lookup_insert_eq; try done.

Lemma user_doc_email now1 now2 user :
  user_doc now1 now2 user !! "email" = Some (VStr (UserRegister.email user)).
Proof. unfold user_doc. lookup_literal. Qed.

Lemma user_doc_password now1 now2 user :
  user_doc now1 now2 user !! "password" = Some (VStr (UserRegister.password user)).
Proof. unfold user_doc. lookup_literal. Qed.

Lemma user_doc_approved now1 now2 user :
  user_doc now1 now2 user !! "approved" =
    Some (VBool (String.eqb (UserRegister.role user) "admin")).
Proof. unfold user_doc. lookup_literal. by destruct (String.eqb _ _). Qed.

Lemma user_doc_name now1 now2 user :
  user_doc now1 now2 user !! "name" = Some (VStr (UserRegister.name user)).
Proof. unfold user_doc. lookup_literal. Qed.

Lemma user_doc_role now1 now2 user :
  user_doc now1 now2 user !! "role" = Some (VStr (UserRegister.role user)).
Proof. unfold user_doc. lookup_literal. Qed.

(** What [register_user] does when no document has the email. *)
Lemma register_user_inserts now1 now2 user db :
  (∀ k u, coll "user" db !! k = Some u →
          u !! "email" ≠ Some (VStr (UserRegister.email user))) →
  let k := fresh (dom (coll "user" db)) in
  register_user now1 now2 user db =
    (Return (Some (oid_to_str_dict (with_id (k, user_doc now1 now2 user)))),
     <["user" := <[k := user_doc now1 now2 user]> (coll "user" db)]> db).
Proof.
  intros Hnone. simpl.
  unfold register_user, mbind, M_bind, find_one.
  rewrite first_match_email_None by done. simpl.
  unfold insert_one, find_one, mret, M_ret.
  by rewrite coll_insert, first_match_by_id, lookup_insert_eq.
Qed.

(** X5. Registering an email that a stored user already has is refused
    with 400 "Email already registered", and the store is left as it was. *)
Theorem register_user_duplicate now1 now2 user db k u :
  coll "user" db !! k = Some u →
  u !! "email" = Some (VStr (UserRegister.email user)) →
  register_user now1 now2 user db =
    (Raise (HTTPException 400 "Email already registered"), db).
Proof.
  intros Hk He. unfold register_user, mbind, M_bind, find_one.
  destruct (first_match _ _) as [kd|] eqn:Hf.
  - simpl. by rewrite with_id_not_empty.
  - pose proof (first_match_None _ _ _ _ Hf Hk) as Hm.
    assert (Hm' : matches [("email", CEqStr (UserRegister.email user))] (with_id (k, u)) = true)
      by by apply matches_email.
    congruence.
Qed.

(** X6. Registering a new email inserts one user document under a fresh
    identifier.  The document stores the password exactly as submitted
    and is approved only for the role "admin"; the record returned
    carries the identifier as [id] and that same password. *)
Theorem register_user_fresh now1 now2 user db :
  (∀ k u, coll "user" db !! k = Some u →
          u !! "email" ≠ Some (VStr (UserRegister.email user))) →
  ∃ k r,
    register_user now1 now2 user db =
      (Return (Some r), <["user" := <[k := user_doc now1 now2 user]> (coll "user" db)]> db) ∧
    coll "user" db !! k = None ∧
    user_doc now1 now2 user !! "password" = Some (VStr (UserRegister.password user)) ∧
    user_doc now1 now2 user !! "approved" =
      Some (VBool (String.eqb (UserRegister.role user) "admin")) ∧
    r !! "id" = Some (VStr (oid_str k)) ∧
    r !! "email" = Some (VStr (UserRegister.email user)) ∧
    r !! "password" = Some (VStr (UserRegister.password user)).
Proof.
  intros Hnone. eexists _, _. split; [by apply register_user_inserts|].
  split; [apply not_elem_of_dom, is_fresh|].
  split; [apply user_doc_password|].
  split; [apply user_doc_approved|].
  split; [apply rendered_id|].
  split; [by rewrite rendered_field, user_doc_email|].
  by rewrite rendered_field, user_doc_password.
Qed.

(** X7. [register_user] keeps emails unique: if no two stored users share
    an email before the call, none do after it, whether it succeeds or
    not. *)
Theorem register_user_keeps_emails_unique now1 now2 user db :
  emails_unique db → emails_unique (exec (register_user now1 now2 user) db).
Proof.
  intros Huniq.
  destruct (first_match [("email", CEqStr (UserRegister.email user))] (coll "user" db))
    as [[k u]|] eqn:Hf.
  - destruct (first_match_Some _ _ _ Hf) as [Hk Hm]. simpl in Hk.
    apply matches_email in Hm. simpl in Hm.
    unfold exec, register_user, mbind, M_bind, find_one. rewrite Hf. simpl.
    by rewrite with_id_not_empty.
  - assert (Hnone : ∀ k u, coll "user" db !! k = Some u →
                           u !! "email" ≠ Some (VStr (UserRegister.email user))).
    { intros k u Hk He. pose proof (first_match_None _ _ _ _ Hf Hk) as Hm.
      assert (matches [("email", CEqStr (UserRegister.email user))] (with_id (k, u)) = true)
        by by apply matches_email.
      congruence. }
    unfold exec. rewrite register_user_inserts by done. simpl.
    set (k0 := fresh (dom (coll "user" db))).
    assert (Hk0 : coll "user" db !! k0 = None) by apply not_elem_of_dom, is_fresh.
    intros k1 k2 u1 u2 e. rewrite coll_insert.
    destruct (decide (k1 = k0)) as [->|Hn1]; destruct (decide (k2 = k0)) as [->|Hn2];
      [done| | |].
    + rewrite lookup_insert_eq, lookup_insert_ne by done.
      intros [= <-] H2 He1 He2. rewrite user_doc_email in He1.
      injection He1 as <-. by destruct (Hnone _ _ H2).
    + rewrite lookup_insert_eq, lookup_insert_ne by done.
      intros H1 [= <-] He1 He2. rewrite user_doc_email in He2.
      injection He2 as <-. by destruct (Hnone _ _ H1).
    + rewrite !lookup_insert_ne by done. apply Huniq.
Qed.

(** What [login] answers once a given document is the one found. *)
Lemma login_found (req : LoginReq) db k u (p : string) (e : value) :
  first_match [("email", CEqStr (email req))] (coll "user" db) = Some (k, u) →
  u !! "password" = Some (VStr p) →
  u !! "email" = Some e →
  login req db =
    if negb (String.eqb p (password req)) then
      (Raise (HTTPException 401 "Invalid credentials"), db)
    else if negb (truthy (get u "approved")) then
      (Raise (HTTPException 403 "Account awaiting approval"), db)
    else
      (Return (list_to_map [("email", e); ("name", get u "name");
                            ("role", get_or u "role" (VStr "customer"));
                            ("approved", VBool true)]), db).
Proof.
  intros Hf Hp He. unfold login, mbind, M_bind, find_one. rewrite Hf. simpl.
  rewrite with_id_not_empty. simpl.
  unfold get, get_or, getitem. rewrite !with_id_lookup_ne by done. simpl.
  rewrite Hp, He. simpl.
  destruct (negb (String.eqb p (password req))); [done|].
  by destruct (negb (truthy (default VNone (u !! "approved")))).
Qed.

(** X8. Registration followed by login with the same email and password:
    a user registered with the role "admin" is logged in at once, and any
    other role is answered 403 "Account awaiting approval". *)
Theorem register_then_login now1 now2 user db :
  (∀ k u, coll "user" db !! k = Some u →
          u !! "email" ≠ Some (VStr (UserRegister.email user))) →
  let db1 := exec (register_user now1 now2 user) db in
  login {| email := UserRegister.email user; password := UserRegister.password user |} db1 =
    if String.eqb (UserRegister.role user) "admin" then
      (Return (list_to_map [("email", VStr (UserRegister.email user));
                            ("name", VStr (UserRegister.name user));
                            ("role", VStr (UserRegister.role user));
                            ("approved", VBool true)]), db1)
    else (Raise (HTTPException 403 "Account awaiting approval"), db1).
Proof.
  intros Hnone db1. unfold db1, exec. rewrite register_user_inserts by done. simpl.
  set (k0 := fresh (dom (coll "user" db))).
  assert (Hk0 : coll "user" db !! k0 = None) by apply not_elem_of_dom, is_fresh.
  rewrite (login_found _ _ k0 (user_doc now1 now2 user)
             (UserRegister.password user) (VStr (UserRegister.email user))).
  - simpl. rewrite String.eqb_refl. simpl.
    unfold get, get_or. rewrite user_doc_approved, user_doc_name, user_doc_role. simpl.
    by destruct (String.eqb (UserRegister.role user) "admin").
  - simpl. rewrite coll_insert. apply first_match_email_unique.
    + apply lookup_insert_eq.
    + apply user_doc_email.
    + intros k' u' Hk' He'. destruct (decide (k' = k0)) as [|Hne]; [done|].
      rewrite lookup_insert_ne in Hk' by done. by destruct (Hnone _ _ Hk').
  - apply user_doc_password.
  - apply user_doc_email.
Qed.

End UsersMore.

(** ** Approval, the user list and the admin check *)

Section AdminMore.
Context `{PyRuntime}.
Implicit Types (db : DB) (c : collection) (d u : dict) (k : oid) (now : datetime).

(** What [approve_user] does for an admin. *)
Lemma approve_user_admin now (e : string) db :
  approve_user now e (Some "true") db =
    match first_match [("email", CEqStr e)] (coll "user" db) with
    | Some (k, u) =>
        (Return {["status" := VStr "approved"]},
         <["user" := <[k := <["updated_at" := VDatetime now]>
                              (<["approved" := VBool true]> u)]> (coll "user" db)]> db)
    | None => (Raise (HTTPException 404 "User not found"), db)
    end.
Proof.
  unfold approve_user, require_admin, mbind, M_bind, update_one, raise, mret, M_ret. simpl.
  by destruct (first_match _ _) as [[k u]|].
Qed.

(** X9. For an admin, approving an email that no stored user has is
    answered 404 "User not found" and changes nothing. *)
Theorem approve_user_unknown now (e : string) db :
  (∀ k u, coll "user" db !! k = Some u → u !! "email" ≠ Some (VStr e)) →
  approve_user now e (Some "true") db = (Raise (HTTPException 404 "User not found"), db).
Proof.
  intros Hnone. by rewrite approve_user_admin, first_match_email_None.
Qed.

(** X10. For an admin, approving the email of the one stored user who has
    it sets that user's [approved] to [True] and [updated_at] to the
    current time, and answers "approved"; the user's other fields, the
    other users and the other collections stay as they were. *)
Theorem approve_user_effect now (e : string) db k u :
  coll "user" db !! k = Some u →
  u !! "email" = Some (VStr e) →
  (∀ k' u', coll "user" db !! k' = Some u' → u' !! "email" = Some (VStr e) → k' = k) →
  ∃ u' db',
    approve_user now e (Some "true") db = (Return {["status" := VStr "approved"]}, db') ∧
    coll "user" db' = <[k := u']> (coll "user" db) ∧
    u' !! "approved" = Some (VBool true) ∧
    u' !! "updated_at" = Some (VDatetime now) ∧
    (∀ f : string, f ≠ "approved" → f ≠ "updated_at" → u' !! f = u !! f) ∧
    (∀ name : string, name ≠ "user" → db' !! name = db !! name).
Proof.
  intros Hk He Huniq. eexists _, _.
  rewrite approve_user_admin, (first_match_email_unique e _ k u) by done.
  split; [done|].
  split; [by rewrite coll_insert|].
  split; [by rewrite lookup_insert_ne, lookup_insert_eq|].
  split; [by rewrite lookup_insert_eq|].
  split; [intros f H1 H2; by rewrite !lookup_insert_ne|].
  intros name Hne. by rewrite lookup_insert_ne.
Qed.

(** X11. The whole path of a customer: registered under a new email,
    approved by an admin, the user then logs in with the email and
    password submitted at registration and gets the profile with
    [approved] true. *)
Theorem register_approve_login now1 now2 now3 (user : UserRegister.t) db :
  (∀ k u, coll "user" db !! k = Some u →
          u !! "email" ≠ Some (VStr (UserRegister.email user))) →
  let db1 := exec (register_user now1 now2 user) db in
  let db2 := exec (approve_user now3 (UserRegister.email user) (Some "true")) db1 in
  login {| email := UserRegister.email user; password := UserRegister.password user |} db2 =
    (Return (list_to_map [("email", VStr (UserRegister.email user));
                          ("name", VStr (UserRegister.name user));
                          ("role", VStr (UserRegister.role user));
                          ("approved", VBool true)]), db2).
Proof.
  intros Hnone db1 db2. unfold db2, db1, exec.
  rewrite register_user_inserts by done. simpl.
  set (k0 := fresh (dom (coll "user" db))).
  set (u0 := user_doc now1 now2 user).
  assert (Hk0 : coll "user" db !! k0 = None) by apply not_elem_of_dom, is_fresh.
  assert (Huniq : ∀ w : dict,
            w !! "email" = Some (VStr (UserRegister.email user)) →
            first_match [("email", CEqStr (UserRegister.email user))]
              (<[k0 := w]> (coll "user" db)) = Some (k0, w)).
  { intros w Hw. apply first_match_email_unique; [apply lookup_insert_eq | done |].
    intros k' u' Hk' He'. destruct (decide (k' = k0)) as [|Hne]; [done|].
    rewrite lookup_insert_ne in Hk' by done. by destruct (Hnone _ _ Hk'). }
  rewrite approve_user_admin, coll_insert.
  rewrite (Huniq u0) by apply user_doc_email. simpl.
  rewrite insert_insert_eq, insert_insert_eq.
  set (u1 := <["updated_at" := VDatetime now3]> (<["approved" := VBool true]> u0)).
  rewrite (login_found _ _ k0 u1 (UserRegister.password user)
             (VStr (UserRegister.email user))).
  - simpl. rewrite String.eqb_refl. simpl.
    unfold get, get_or, u1. rewrite lookup_insert_ne, lookup_insert_eq by done. simpl.
    rewrite !lookup_insert_ne by done. unfold u0.
    by rewrite user_doc_name, user_doc_role.
  - simpl. rewrite coll_insert. apply Huniq.
    unfold u1. rewrite !lookup_insert_ne by done. apply user_doc_email.
  - unfold u1. rewrite !lookup_insert_ne by done. apply user_doc_password.
  - unfold u1. rewrite !lookup_insert_ne by done. apply user_doc_email.
Qed.

(** X12. For an admin, [list_users] returns one record per stored user,
    and none of the records has a [password] field. *)
Theorem list_users_hides_password db :
  ∃ l, list_users (Some "true") db = (Return l, db) ∧
       length l = size (coll "user" db) ∧
       (∀ r, r ∈ l → r !! "password" = None) ∧
       (∀ k u, coll "user" db !! k = Some u →
               oid_to_str_dict (delete "password" (with_id (k, u))) ∈ l).
Proof.
  eexists. split; [|split; [|split]].
  - unfold list_users, require_admin, mbind, M_bind, find_without, mret, M_ret. simpl.
    by rewrite find_matches_all.
  - by rewrite !length_fmap, length_map_to_list.
  - intros r Hr. apply list_elem_of_fmap in Hr as (d & -> & Hd).
    apply list_elem_of_fmap in Hd as (d' & -> & _).
    apply oid_to_str_dict_lookup_None; [done|]. apply lookup_delete_eq.
  - intros k u Hk. apply list_elem_of_fmap_2, list_elem_of_fmap_2.
    apply (list_elem_of_fmap_2 with_id _ (k, u)). by apply elem_of_map_to_list.
Qed.

(** X13. The four admin handlers check the header before anything else:
    without the header value "true" each of them answers 403 "Admin
    access required" and leaves the store untouched. *)
Theorem admin_handlers_refuse (x_admin : option string) now (product : ProductIn.t)
    (product_id e : string) db :
  x_admin ≠ Some "true" →
  create_product now product x_admin db =
    (Raise (HTTPException 403 "Admin access required"), db) ∧
  delete_product product_id x_admin db =
    (Raise (HTTPException 403 "Admin access required"), db) ∧
  list_users x_admin db = (Raise (HTTPException 403 "Admin access required"), db) ∧
  approve_user now e x_admin db = (Raise (HTTPException 403 "Admin access required"), db).
Proof.
  intros Hna.
  unfold create_product, delete_product, list_users, approve_user, require_admin,
    mbind, M_bind, raise.
  by rewrite bool_decide_eq_false_2.
Qed.

End AdminMore.

(** ** Products: creation, deletion and the stock invariant *)

Section ProductsMore.
Context `{PyRuntime}.
Implicit Types (db : DB) (c : collection) (d : dict) (k : oid) (now : datetime)
  (item : OrderItem) (order : OrderIn).







(** X16. For an admin and the identifier of a stored product,
    [delete_product] removes that product and no other, touches no other
    collection, and answers "ok". *)
Theorem delete_product_removes (product_id : string) db k d :
  ObjectId product_id = Some k →
  coll "product" db !! k = Some d →
  ∃ db',
    delete_product product_id (Some "true") db = (Return {["status" := VStr "ok"]}, db') ∧
    coll "product" db' !! k = None ∧
    (∀ k', k' ≠ k → coll "product" db' !! k' = coll "product" db !! k') ∧
    (∀ name : string, name ≠ "product" → db' !! name = db !! name).
Proof.
  intros Hk Hd. eexists. rewrite delete_product_admin, Hk, Hd.
  split; [done|].
  split; [by rewrite coll_insert, lookup_delete_eq|].
  split; [intros k' Hne; by rewrite coll_insert, lookup_delete_ne|].
  intros name Hne. by rewrite lookup_insert_ne.
Qed.

(** X2. For an admin, a product id that is not 24 characters long is
    answered 400 "Invalid product id", and nothing is deleted. *)
Theorem delete_product_malformed_id (product_id : string) db :
  String.length product_id ≠ 24%nat →
  delete_product product_id (Some "true") db =
    (Raise (HTTPException 400 "Invalid product id"), db).
Proof.
  intros Hlen. rewrite delete_product_admin. unfold ObjectId.
  by rewrite decide_False.
Qed.

(** One pass of the loop body either changes nothing or rewrites the
    [stock_qty] and [updated_at] of one stored product whose stock was
    sufficient. *)
Lemma decrement_stock_cases now item db :
  exec (decrement_stock now item) db = db ∨
  ∃ k d v',
    coll "product" db !! k = Some d ∧
    exec (decrement_stock now item) db =
      <["product" := <[k := <["updated_at" := VDatetime now]> (<["stock_qty" := v']> d)]>
                       (coll "product" db)]> db ∧
    ((∃ m, d !! "stock_qty" = Some (VInt m) ∧ quantity item ≤ m ∧
           v' = VInt (m - quantity item)) ∨
     (∃ x, d !! "stock_qty" = Some (VFloat x) ∧
           v' = VFloat (float_add x (float_of_int (- quantity item))))).
Proof.
  unfold exec, decrement_stock, try_except, mbind, M_bind, to_ObjectId, update_one, mret, M_ret.
  destruct (ObjectId (product_id item)) as [k|]; [|by left].
  rewrite (first_match_id _ _ k) by apply list_elem_of_here.
  destruct (coll "product" db !! k) as [d|] eqn:Hd; [|by left].
  rewrite matches_stock.
  destruct (d !! "stock_qty") as [v|] eqn:Hs; [|by left].
  destruct v; simpl; try (by left).
  - destruct (Z.leb_spec (quantity item) n); [|by left].
    right. exists k, d, (VInt (n - quantity item)).
    split; [done|]. unfold apply_update. simpl. rewrite Hs. simpl.
    replace (n + - quantity item) with (n - quantity item) by lia.
    split; [done|]. left. by exists n.
  - destruct (float_ge_int x (quantity item)); [|by left].
    right. eexists k, d, _.
    split; [done|]. unfold apply_update. simpl. rewrite Hs. simpl.
    split; [done|]. right. by exists x.
Qed.

Lemma decrement_stock_nonneg now item db :
  stock_nonneg db → stock_nonneg (exec (decrement_stock now item) db).
Proof.
  intros Hinv.
  destruct (decrement_stock_cases now item db) as [->|(k & d & v' & Hd & -> & Hv)]; [done|].
  intros k' d' m'. rewrite coll_insert.
  destruct (decide (k' = k)) as [->|Hne].
  - rewrite lookup_insert_eq. intros [= <-].
    rewrite lookup_insert_ne, lookup_insert_eq by done. intros [= ->].
    destruct Hv as [(m & Hs & Hle & [= ->])|(x & _ & [=])].
    specialize (Hinv _ _ _ Hd Hs). lia.
  - rewrite lookup_insert_ne by done. apply Hinv.
Qed.

(** X17. [create_order] never drives a stock below zero: if every integer
    [stock_qty] of the store is non-negative before the call, it is so
    after it, whatever the items and quantities and whether or not the
    request is accepted. *)
Theorem create_order_keeps_stock_nonneg now order db :
  stock_nonneg db → stock_nonneg (exec (create_order now order) db).
Proof.
  intros Hinv.
  destruct (float_ne (round2 (calc_total order)) (round2 (total order))) eqn:Hne.
  - unfold exec, create_order. by rewrite Hne.
  - unfold stock_nonneg. rewrite create_order_products by done.
    assert (Hloop : ∀ (l : list OrderItem) db0,
              stock_nonneg db0 → stock_nonneg (exec (for_each l (decrement_stock now)) db0)).
    { induction l as [|item l IH]; intros db0 H0; [done|].
      rewrite stock_loop_cons. by apply IH, decrement_stock_nonneg. }
    apply (Hloop _ _ Hinv).
Qed.

(** X18. [create_order] neither adds nor removes a product, changes no
    field of a product other than [stock_qty] and [updated_at], and
    leaves every collection other than the products and the orders as it
    was. *)
Theorem create_order_frame now order db :
  dom (coll "product" (exec (create_order now order) db)) = dom (coll "product" db)
  ∧ (∀ k d (f : string),
       coll "product" db !! k = Some d → f ≠ "stock_qty" → f ≠ "updated_at" →
       ∃ d', coll "product" (exec (create_order now order) db) !! k = Some d' ∧
             d' !! f = d !! f)
  ∧ (∀ name : string, name ≠ "product" → name ≠ "order" →
       exec (create_order now order) db !! name = db !! name).
Proof.
  assert (Hstep : ∀ item db0,
    dom (coll "product" (exec (decrement_stock now item) db0)) = dom (coll "product" db0) ∧
    ∀ k d (f : string), coll "product" db0 !! k = Some d →
      f ≠ "stock_qty" → f ≠ "updated_at" →
      ∃ d', coll "product" (exec (decrement_stock now item) db0) !! k = Some d' ∧
            d' !! f = d !! f).
  { intros item db0.
    destruct (decrement_stock_cases now item db0) as [->|(k & d & v' & Hd & -> & _)].
    - split; [done|]. intros k d f Hk _ _. by exists d.
    - rewrite coll_insert. split.
      + rewrite dom_insert_L. apply subseteq_union_1_L, singleton_subseteq_l.
        by apply elem_of_dom_2 in Hd.
      + intros k' d' f Hk' H1 H2. destruct (decide (k' = k)) as [->|Hne].
        * rewrite lookup_insert_eq. eexists. split; [done|].
          rewrite !lookup_insert_ne by done. congruence.
        * rewrite lookup_insert_ne by done. by exists d'. }
  assert (Hloop : ∀ (l : list OrderItem) db0,
    dom (coll "product" (exec (for_each l (decrement_stock now)) db0)) =
      dom (coll "product" db0) ∧
    ∀ k d (f : string), coll "product" db0 !! k = Some d →
      f ≠ "stock_qty" → f ≠ "updated_at" →
      ∃ d', coll "product" (exec (for_each l (decrement_stock now)) db0) !! k = Some d' ∧
            d' !! f = d !! f).
  { induction l as [|item l IH]; intros db0.
    - split; [done|]. intros k d f Hk _ _. by exists d.
    - rewrite stock_loop_cons.
      destruct (Hstep item db0) as [Hd1 Hf1].
      destruct (IH (exec (decrement_stock now item) db0)) as [Hd2 Hf2].
      split; [congruence|]. intros k d f Hk H1 H2.
      destruct (Hf1 k d f Hk H1 H2) as (d1 & Hk1 & He1).
      destruct (Hf2 k d1 f Hk1 H1 H2) as (d2 & Hk2 & He2).
      exists d2. split; [done|congruence]. }
  destruct (float_ne (round2 (calc_total order)) (round2 (total order))) eqn:Hne.
  - unfold exec, create_order. rewrite Hne. simpl.
    split; [done|]. split; [|done]. intros k d f Hk _ _. by exists d.
  - rewrite create_order_products by done.
    destruct (Hloop (items order) db) as [Hd Hf].
    split; [done|]. split; [done|].
    intros name H1 H2. unfold exec. rewrite create_order_checked by done. simpl.
    destruct (dict_encodable (order_doc now order)); simpl.
    + rewrite lookup_insert_ne by done. by apply stock_loop_frame.
    + by apply stock_loop_frame.
Qed.

End ProductsMore.

(** ** Login profiles and the order list *)

Section ListsMore.
Context `{PyRuntime}.
Implicit Types (db : DB) (c : collection) (d : dict) (k : oid) (now : datetime)
  (order : OrderIn).

(** X19. [login] only reads: the store is the same after every call.  A
    successful call returns exactly the four fields [email], [name],
    [role] and [approved], with the email submitted and [approved] true,
    and so never the password. *)
Theorem login_profile (req : LoginReq) db :
  exec (login req) db = db
  ∧ (∀ r db', login req db = (Return r, db') →
       dom r = {["email"; "name"; "role"; "approved"]} ∧
       r !! "email" = Some (VStr (email req)) ∧
       r !! "approved" = Some (VBool true) ∧
       r !! "password" = None).
Proof.
  unfold exec, login, mbind, M_bind, find_one.
  destruct (first_match _ _) as [[k u]|] eqn:Hf; simpl; [|split; [done|discriminate]].
  destruct (first_match_Some _ _ _ Hf) as [_ Hm].
  apply matches_email in Hm. simpl in Hm.
  destruct (dict_empty _ || _); [split; [done|discriminate]|].
  destruct (negb (truthy _)); [split; [done|discriminate]|].
  unfold getitem. rewrite with_id_lookup_ne by done. cbn [snd]. rewrite Hm. simpl.
  split; [done|]. intros r db' [= <- <-].
  split; [|split; [|split]].
  - rewrite !dom_insert_L, dom_empty_L. set_solver.
  - by rewrite lookup_insert_eq.
  - repeat (rewrite lookup_insert_ne by done). by rewrite lookup_insert_eq.
  - by repeat (rewrite lookup_insert_ne by done).
Qed.

(** The filter on [user_email] matches exactly the orders placed under
    that email. *)
Lemma matches_user_email (e : string) (kd : oid * dict) :
  matches [("user_email", CEqStr e)] (with_id kd) = true ↔
  kd.2 !! "user_email" = Some (VStr e).
Proof.
  unfold matches. simpl. rewrite with_id_lookup_ne by done.
  rewrite andb_true_r.
  destruct (kd.2 !! "user_email") as [[]|]; simpl;
    try (split; [discriminate|congruence]).
  split; [intros ->%String.eqb_eq; done | intros [= ->]; apply String.eqb_refl].
Qed.

(** X20. Without the admin header and with a non-empty email,
    [list_orders] returns the orders stored under that email and only
    those; with the admin header "true", or with an empty email, the
    email is ignored and every order is returned. *)
Theorem list_orders_by_email (e : string) (x_admin : option string) db :
  (e ≠ "" → x_admin ≠ Some "true" →
     ∃ l, list_orders (Some e) x_admin db = (Return l, db) ∧
          (∀ r, r ∈ l ↔ ∃ k d, coll "order" db !! k = Some d ∧
                               d !! "user_email" = Some (VStr e) ∧
                               r = oid_to_str_dict (with_id (k, d))))
  ∧ list_orders (Some e) (Some "true") db = list_orders None x_admin db
  ∧ list_orders (Some "") x_admin db = list_orders None x_admin db.
Proof.
  split; [|split].
  - intros He Ha. eexists. split.
    + unfold list_orders, list_orders_query, mbind, M_bind, find.
      rewrite (proj2 (String.eqb_neq e "")) by done.
      rewrite bool_decide_eq_false_2 by done. simpl. done.
    + intros r. rewrite list_elem_of_fmap. split.
      * intros (d0 & -> & Hd0). apply list_elem_of_fmap in Hd0 as ([k d] & -> & Hkd).
        apply find_matches_elem in Hkd as [Hk Hm]. apply matches_user_email in Hm.
        by exists k, d.
      * intros (k & d & Hk & Hm & ->). eexists. split; [done|].
        apply (list_elem_of_fmap_2 with_id _ (k, d)). apply find_matches_elem.
        split; [done|]. by apply matches_user_email.
  - unfold list_orders, list_orders_query. simpl. by rewrite andb_false_r.
  - done.
Qed.

(** X21. An order that [create_order] has taken can be read back: for a
    request that passes the total check and whose quantities all fit in a
    signed 64-bit integer, the record returned is among the records
    [list_orders] then returns, both without a filter and, for a customer,
    under the order's own email. *)
Theorem create_order_then_list now order db (x_admin : option string) :
  float_ne (round2 (calc_total order)) (round2 (total order)) = false →
  Forall (λ i, int64 (quantity i) = true) (items order) →
  ∃ r db' l1,
    create_order now order db = (Return (Some r), db') ∧
    list_orders None x_admin db' = (Return l1, db') ∧ r ∈ l1 ∧
    (user_email order ≠ "" →
     ∃ l2, list_orders (Some (user_email order)) None db' = (Return l2, db') ∧ r ∈ l2).
Proof.
  intros Hok Hfit. eexists _, _, _.
  split; [by apply create_order_accepted, order_doc_encodable|].
  set (k := fresh (dom (coll "order" db))).
  set (db1 := exec (for_each (items order) (decrement_stock now)) db).
  assert (Hin : (k, order_doc now order) ∈
                map_to_list (<[k := order_doc now order]> (coll "order" db))).
  { apply elem_of_map_to_list, lookup_insert_eq. }
  split; [|split].
  - unfold list_orders, mbind, M_bind, find. simpl. rewrite find_matches_all. done.
  - rewrite coll_insert. apply list_elem_of_fmap_2.
    by apply (list_elem_of_fmap_2 with_id _ (k, order_doc now order)).
  - intros He. eexists. split.
    + unfold list_orders, list_orders_query, mbind, M_bind, find.
      rewrite (proj2 (String.eqb_neq (user_email order) "")) by done. simpl. done.
    + rewrite coll_insert. apply list_elem_of_fmap_2.
      apply (list_elem_of_fmap_2 with_id _ (k, order_doc now order)).
      apply find_matches_elem. split; [apply lookup_insert_eq|].
      apply matches_user_email. simpl. apply order_doc_user_email.
Qed.

End ListsMore.

(** ** The further theorems at the sample data *)

Lemma sample_users : coll "user" Sample.db = {[ 7%N := Sample.ann ]}.
Proof. reflexivity. Qed.

Lemma sample_products : coll "product" Sample.db = {[ Sample.laptop_id := Sample.laptop ]}.
Proof. reflexivity. Qed.

Lemma sample_no_bob (k : oid) (u : dict) :
  coll "user" Sample.db !! k = Some u → u !! "email" ≠ Some (VStr "bob@example.com").
Proof.
  rewrite sample_users. intros [<- <-]%lookup_singleton_Some Hu.
  assert (He : Sample.ann !! "email" = Some (VStr "ann@example.com")) by reflexivity.
  rewrite He in Hu. discriminate.
Qed.

Lemma sample_only_ann (k : oid) (u : dict) :
  coll "user" Sample.db !! k = Some u → k = 7%N.
Proof. rewrite sample_users. by intros [<- _]%lookup_singleton_Some. Qed.

Lemma sample_stock_nonneg : stock_nonneg Sample.db.
Proof.
  intros k d m. rewrite sample_products. intros [<- <-]%lookup_singleton_Some Hs.
  assert (He : Sample.laptop !! "stock_qty" = Some (VInt 11)) by reflexivity.
  rewrite He in Hs. injection Hs as <-. lia.
Qed.

Lemma sample_emails_unique : emails_unique Sample.db.
Proof.
  intros k1 k2 u1 u2 e H1 H2 _ _.
  by rewrite (sample_only_ann _ _ H1), (sample_only_ann _ _ H2).
Qed.

Lemma register_user_duplicate_witness :
  register_user Sample.now Sample.later SampleMore.ann_again Sample.db =
    (Raise (HTTPException 400 "Email already registered"), Sample.db).
Proof.
  apply (register_user_duplicate Sample.now Sample.later SampleMore.ann_again
           Sample.db 7%N Sample.ann); reflexivity.
Defined.

Lemma register_user_fresh_witness :
  ∃ k r,
    register_user Sample.now Sample.later SampleMore.bob Sample.db =
      (Return (Some r),
       <["user" := <[k := user_doc Sample.now Sample.later SampleMore.bob]>
                     (coll "user" Sample.db)]> Sample.db) ∧
    r !! "password" = Some (VStr "hunter2").
Proof.
  destruct (register_user_fresh Sample.now Sample.later SampleMore.bob Sample.db
              sample_no_bob) as (k & r & Hrun & _ & _ & _ & _ & _ & Hp).
  exists k, r. exact (conj Hrun Hp).
Defined.

Lemma register_user_keeps_emails_unique_witness :
  emails_unique (exec (register_user Sample.now Sample.later SampleMore.bob) Sample.db).
Proof.
  exact (register_user_keeps_emails_unique Sample.now Sample.later SampleMore.bob
           Sample.db sample_emails_unique).
Defined.

Lemma register_then_login_witness :
  login {| email := "bob@example.com"; password := "hunter2" |}
    (exec (register_user Sample.now Sample.later SampleMore.bob) Sample.db) =
  (Raise (HTTPException 403 "Account awaiting approval"),
   exec (register_user Sample.now Sample.later SampleMore.bob) Sample.db).
Proof.
  exact (register_then_login Sample.now Sample.later SampleMore.bob Sample.db sample_no_bob).
Defined.

Lemma approve_user_unknown_witness :
  approve_user Sample.now "bob@example.com" (Some "true") Sample.db =
    (Raise (HTTPException 404 "User not found"), Sample.db).
Proof.
  exact (approve_user_unknown Sample.now "bob@example.com" Sample.db sample_no_bob).
Defined.

Lemma approve_user_effect_witness :
  ∃ u' db',
    approve_user Sample.now "ann@example.com" (Some "true") Sample.db =
      (Return {["status" := VStr "approved"]}, db') ∧
    coll "user" db' = <[7%N := u']> (coll "user" Sample.db) ∧
    u' !! "approved" = Some (VBool true).
Proof.
  destruct (approve_user_effect Sample.now "ann@example.com" Sample.db 7%N Sample.ann
              eq_refl eq_refl (λ k' u' Hk' _, sample_only_ann k' u' Hk'))
    as (u' & db' & Hrun & Hc & Ha & _).
  exists u', db'. exact (conj Hrun (conj Hc Ha)).
Defined.

Lemma register_approve_login_witness :
  let db2 := exec (approve_user Sample.later "bob@example.com" (Some "true"))
               (exec (register_user Sample.now Sample.now SampleMore.bob) Sample.db) in
  login {| email := "bob@example.com"; password := "hunter2" |} db2 =
    (Return (list_to_map [("email", VStr "bob@example.com"); ("name", VStr "Bob");
                          ("role", VStr "customer"); ("approved", VBool true)]), db2).
Proof.
  exact (register_approve_login Sample.now Sample.now Sample.later SampleMore.bob
           Sample.db sample_no_bob).
Defined.

Lemma admin_handlers_refuse_witness :
  delete_product "65a1b2c3d4e5f60718293a4b" None Sample.db =
    (Raise (HTTPException 403 "Admin access required"), Sample.db).
Proof.
  assert (Hna : (None : option string) ≠ Some "true") by discriminate.
  exact (proj1 (proj2 (admin_handlers_refuse None Sample.now SampleMore.mouse
                         "65a1b2c3d4e5f60718293a4b" "ann@example.com" Sample.db Hna))).
Defined.


Lemma delete_product_malformed_id_witness :
  delete_product "42" (Some "true") Sample.db =
    (Raise (HTTPException 400 "Invalid product id"), Sample.db).
Proof.
  assert (Hlen : String.length "42" ≠ 24%nat) by discriminate.
  exact (delete_product_malformed_id "42" Sample.db Hlen).
Defined.

Lemma delete_product_removes_witness :
  ∃ db',
    delete_product "65a1b2c3d4e5f60718293a4b" (Some "true") Sample.db =
      (Return {["status" := VStr "ok"]}, db') ∧
    coll "product" db' !! Sample.laptop_id = None.
Proof.
  destruct (delete_product_removes "65a1b2c3d4e5f60718293a4b" Sample.db
              Sample.laptop_id Sample.laptop eq_refl eq_refl) as (db' & Hrun & Hk & _).
  exists db'. exact (conj Hrun Hk).
Defined.

Lemma create_order_keeps_stock_nonneg_witness :
  stock_nonneg (exec (create_order Sample.now Sample.big_order) Sample.db).
Proof.
  exact (create_order_keeps_stock_nonneg Sample.now Sample.big_order Sample.db
           sample_stock_nonneg).
Defined.

Lemma create_order_then_list_witness :
  ∃ r db' l,
    create_order Sample.now Sample.order Sample.db = (Return (Some r), db') ∧
    list_orders None None db' = (Return l, db') ∧ r ∈ l.
Proof.
  destruct (create_order_then_list Sample.now Sample.order Sample.db None eq_refl
              sample_order_fits)
    as (r & db' & l & Hrun & Hl & Hin & _).
  exists r, db', l. exact (conj Hrun (conj Hl Hin)).
Defined.
